(** * metadata_gen: the document analyzer of [streamlit.py]

    A shallow embedding of [analyze_document] (streamlit.py, lines 108-167)
    together with the fragment of the Python runtime it calls: [str]
    methods, [collections.Counter], [re.findall] on the three entity
    patterns, [set] iteration, [time.time] and the optional [textstat]
    import.

    A Python [str] is a list of code points.  The character tables
    ([isspace], the lower case, the regex classes for a word character and
    a decimal digit) cover every code point. *)

From Stdlib Require Import NArith ZArith List Bool Arith Lia.
From Stdlib Require Import Ascii PrimFloat.
From Stdlib Require String.
Import String.StringSyntax.
Import ListNotations.

Set Implicit Arguments.

(** ** The character tables of the interpreter

    The classes of characters that [str.lower] and the patterns of [re]
    ask about, as ranges of code points: the tables of the Unicode
    Character Database 14.0.0, which CPython 3.11 carries. *)

Module Unicode.

Local Open Scope N_scope.

(** [c] lies in one of the ranges of [table]; the ranges stand in ascending
    order. *)
Fixpoint in_ranges (c : N) (table : list (N * N)) : bool :=
  match table with
  | [] => false
  | (lo, hi) :: table' =>
      if c <? lo then false
      else if c <=? hi then true
      else in_ranges c table'
  end.

(** The decimal digits ([str.isdecimal], [\d]). *)
Definition decimal_digits : list (N * N) :=
  [(48, 57); (1632, 1641); (1776, 1785); (1984, 1993); (2406, 2415);
   (2534, 2543); (2662, 2671); (2790, 2799); (2918, 2927); (3046, 3055);
   (3174, 3183); (3302, 3311); (3430, 3439); (3558, 3567); (3664, 3673);
   (3792, 3801); (3872, 3881); (4160, 4169); (4240, 4249); (6112, 6121);
   (6160, 6169); (6470, 6479); (6608, 6617); (6784, 6793); (6800, 6809);
   (6992, 7001); (7088, 7097); (7232, 7241); (7248, 7257); (42528, 42537);
   (43216, 43225); (43264, 43273); (43472, 43481); (43504, 43513);
   (43600, 43609); (44016, 44025); (65296, 65305); (66720, 66729);
   (68912, 68921); (69734, 69743); (69872, 69881); (69942, 69951);
   (70096, 70105); (70384, 70393); (70736, 70745); (70864, 70873);
   (71248, 71257); (71360, 71369); (71472, 71481); (71904, 71913);
   (72016, 72025); (72784, 72793); (73040, 73049); (73120, 73129);
   (92768, 92777); (92864, 92873); (93008, 93017); (120782, 120831);
   (123200, 123209); (123632, 123641); (125264, 125273); (130032, 130041)].

(** The word characters ([str.isalnum] or the underscore, [\w]). *)
Definition word_characters : list (N * N) :=
  [(48, 57); (65, 90); (95, 95); (97, 122); (170, 170); (178, 179); (181, 181);
   (185, 186); (188, 190); (192, 214); (216, 246); (248, 705); (710, 721);
   (736, 740); (748, 748); (750, 750); (880, 884); (886, 887); (890, 893);
   (895, 895); (902, 902); (904, 906); (908, 908); (910, 929); (931, 1013);
   (1015, 1153); (1162, 1327); (1329, 1366); (1369, 1369); (1376, 1416);
   (1488, 1514); (1519, 1522); (1568, 1610); (1632, 1641); (1646, 1647);
   (1649, 1747); (1749, 1749); (1765, 1766); (1774, 1788); (1791, 1791);
   (1808, 1808); (1810, 1839); (1869, 1957); (1969, 1969); (1984, 2026);
   (2036, 2037); (2042, 2042); (2048, 2069); (2074, 2074); (2084, 2084);
   (2088, 2088); (2112, 2136); (2144, 2154); (2160, 2183); (2185, 2190);
   (2208, 2249); (2308, 2361); (2365, 2365); (2384, 2384); (2392, 2401);
   (2406, 2415); (2417, 2432); (2437, 2444); (2447, 2448); (2451, 2472);
   (2474, 2480); (2482, 2482); (2486, 2489); (2493, 2493); (2510, 2510);
   (2524, 2525); (2527, 2529); (2534, 2545); (2548, 2553); (2556, 2556);
   (2565, 2570); (2575, 2576); (2579, 2600); (2602, 2608); (2610, 2611);
   (2613, 2614); (2616, 2617); (2649, 2652); (2654, 2654); (2662, 2671);
   (2674, 2676); (2693, 2701); (2703, 2705); (2707, 2728); (2730, 2736);
   (2738, 2739); (2741, 2745); (2749, 2749); (2768, 2768); (2784, 2785);
   (2790, 2799); (2809, 2809); (2821, 2828); (2831, 2832); (2835, 2856);
   (2858, 2864); (2866, 2867); (2869, 2873); (2877, 2877); (2908, 2909);
   (2911, 2913); (2918, 2927); (2929, 2935); (2947, 2947); (2949, 2954);
   (2958, 2960); (2962, 2965); (2969, 2970); (2972, 2972); (2974, 2975);
   (2979, 2980); (2984, 2986); (2990, 3001); (3024, 3024); (3046, 3058);
   (3077, 3084); (3086, 3088); (3090, 3112); (3114, 3129); (3133, 3133);
   (3160, 3162); (3165, 3165); (3168, 3169); (3174, 3183); (3192, 3198);
   (3200, 3200); (3205, 3212); (3214, 3216); (3218, 3240); (3242, 3251);
   (3253, 3257); (3261, 3261); (3293, 3294); (3296, 3297); (3302, 3311);
   (3313, 3314); (3332, 3340); (3342, 3344); (3346, 3386); (3389, 3389);
   (3406, 3406); (3412, 3414); (3416, 3425); (3430, 3448); (3450, 3455);
   (3461, 3478); (3482, 3505); (3507, 3515); (3517, 3517); (3520, 3526);
   (3558, 3567); (3585, 3632); (3634, 3635); (3648, 3654); (3664, 3673);
   (3713, 3714); (3716, 3716); (3718, 3722); (3724, 3747); (3749, 3749);
   (3751, 3760); (3762, 3763); (3773, 3773); (3776, 3780); (3782, 3782);
   (3792, 3801); (3804, 3807); (3840, 3840); (3872, 3891); (3904, 3911);
   (3913, 3948); (3976, 3980); (4096, 4138); (4159, 4169); (4176, 4181);
   (4186, 4189); (4193, 4193); (4197, 4198); (4206, 4208); (4213, 4225);
   (4238, 4238); (4240, 4249); (4256, 4293); (4295, 4295); (4301, 4301);
   (4304, 4346); (4348, 4680); (4682, 4685); (4688, 4694); (4696, 4696);
   (4698, 4701); (4704, 4744); (4746, 4749); (4752, 4784); (4786, 4789);
   (4792, 4798); (4800, 4800); (4802, 4805); (4808, 4822); (4824, 4880);
   (4882, 4885); (4888, 4954); (4969, 4988); (4992, 5007); (5024, 5109);
   (5112, 5117); (5121, 5740); (5743, 5759); (5761, 5786); (5792, 5866);
   (5870, 5880); (5888, 5905); (5919, 5937); (5952, 5969); (5984, 5996);
   (5998, 6000); (6016, 6067); (6103, 6103); (6108, 6108); (6112, 6121);
   (6128, 6137); (6160, 6169); (6176, 6264); (6272, 6276); (6279, 6312);
   (6314, 6314); (6320, 6389); (6400, 6430); (6470, 6509); (6512, 6516);
   (6528, 6571); (6576, 6601); (6608, 6618); (6656, 6678); (6688, 6740);
   (6784, 6793); (6800, 6809); (6823, 6823); (6917, 6963); (6981, 6988);
   (6992, 7001); (7043, 7072); (7086, 7141); (7168, 7203); (7232, 7241);
   (7245, 7293); (7296, 7304); (7312, 7354); (7357, 7359); (7401, 7404);
   (7406, 7411); (7413, 7414); (7418, 7418); (7424, 7615); (7680, 7957);
   (7960, 7965); (7968, 8005); (8008, 8013); (8016, 8023); (8025, 8025);
   (8027, 8027); (8029, 8029); (8031, 8061); (8064, 8116); (8118, 8124);
   (8126, 8126); (8130, 8132); (8134, 8140); (8144, 8147); (8150, 8155);
   (8160, 8172); (8178, 8180); (8182, 8188); (8304, 8305); (8308, 8313);
   (8319, 8329); (8336, 8348); (8450, 8450); (8455, 8455); (8458, 8467);
   (8469, 8469); (8473, 8477); (8484, 8484); (8486, 8486); (8488, 8488);
   (8490, 8493); (8495, 8505); (8508, 8511); (8517, 8521); (8526, 8526);
   (8528, 8585); (9312, 9371); (9450, 9471); (10102, 10131); (11264, 11492);
   (11499, 11502); (11506, 11507); (11517, 11517); (11520, 11557);
   (11559, 11559); (11565, 11565); (11568, 11623); (11631, 11631);
   (11648, 11670); (11680, 11686); (11688, 11694); (11696, 11702);
   (11704, 11710); (11712, 11718); (11720, 11726); (11728, 11734);
   (11736, 11742); (11823, 11823); (12293, 12295); (12321, 12329);
   (12337, 12341); (12344, 12348); (12353, 12438); (12445, 12447);
   (12449, 12538); (12540, 12543); (12549, 12591); (12593, 12686);
   (12690, 12693); (12704, 12735); (12784, 12799); (12832, 12841);
   (12872, 12879); (12881, 12895); (12928, 12937); (12977, 12991);
   (13312, 19903); (19968, 42124); (42192, 42237); (42240, 42508);
   (42512, 42539); (42560, 42606); (42623, 42653); (42656, 42735);
   (42775, 42783); (42786, 42888); (42891, 42954); (42960, 42961);
   (42963, 42963); (42965, 42969); (42994, 43009); (43011, 43013);
   (43015, 43018); (43020, 43042); (43056, 43061); (43072, 43123);
   (43138, 43187); (43216, 43225); (43250, 43255); (43259, 43259);
   (43261, 43262); (43264, 43301); (43312, 43334); (43360, 43388);
   (43396, 43442); (43471, 43481); (43488, 43492); (43494, 43518);
   (43520, 43560); (43584, 43586); (43588, 43595); (43600, 43609);
   (43616, 43638); (43642, 43642); (43646, 43695); (43697, 43697);
   (43701, 43702); (43705, 43709); (43712, 43712); (43714, 43714);
   (43739, 43741); (43744, 43754); (43762, 43764); (43777, 43782);
   (43785, 43790); (43793, 43798); (43808, 43814); (43816, 43822);
   (43824, 43866); (43868, 43881); (43888, 44002); (44016, 44025);
   (44032, 55203); (55216, 55238); (55243, 55291); (63744, 64109);
   (64112, 64217); (64256, 64262); (64275, 64279); (64285, 64285);
   (64287, 64296); (64298, 64310); (64312, 64316); (64318, 64318);
   (64320, 64321); (64323, 64324); (64326, 64433); (64467, 64829);
   (64848, 64911); (64914, 64967); (65008, 65019); (65136, 65140);
   (65142, 65276); (65296, 65305); (65313, 65338); (65345, 65370);
   (65382, 65470); (65474, 65479); (65482, 65487); (65490, 65495);
   (65498, 65500); (65536, 65547); (65549, 65574); (65576, 65594);
   (65596, 65597); (65599, 65613); (65616, 65629); (65664, 65786);
   (65799, 65843); (65856, 65912); (65930, 65931); (66176, 66204);
   (66208, 66256); (66273, 66299); (66304, 66339); (66349, 66378);
   (66384, 66421); (66432, 66461); (66464, 66499); (66504, 66511);
   (66513, 66517); (66560, 66717); (66720, 66729); (66736, 66771);
   (66776, 66811); (66816, 66855); (66864, 66915); (66928, 66938);
   (66940, 66954); (66956, 66962); (66964, 66965); (66967, 66977);
   (66979, 66993); (66995, 67001); (67003, 67004); (67072, 67382);
   (67392, 67413); (67424, 67431); (67456, 67461); (67463, 67504);
   (67506, 67514); (67584, 67589); (67592, 67592); (67594, 67637);
   (67639, 67640); (67644, 67644); (67647, 67669); (67672, 67702);
   (67705, 67742); (67751, 67759); (67808, 67826); (67828, 67829);
   (67835, 67867); (67872, 67897); (67968, 68023); (68028, 68047);
   (68050, 68096); (68112, 68115); (68117, 68119); (68121, 68149);
   (68160, 68168); (68192, 68222); (68224, 68255); (68288, 68295);
   (68297, 68324); (68331, 68335); (68352, 68405); (68416, 68437);
   (68440, 68466); (68472, 68497); (68521, 68527); (68608, 68680);
   (68736, 68786); (68800, 68850); (68858, 68899); (68912, 68921);
   (69216, 69246); (69248, 69289); (69296, 69297); (69376, 69415);
   (69424, 69445); (69457, 69460); (69488, 69505); (69552, 69579);
   (69600, 69622); (69635, 69687); (69714, 69743); (69745, 69746);
   (69749, 69749); (69763, 69807); (69840, 69864); (69872, 69881);
   (69891, 69926); (69942, 69951); (69956, 69956); (69959, 69959);
   (69968, 70002); (70006, 70006); (70019, 70066); (70081, 70084);
   (70096, 70106); (70108, 70108); (70113, 70132); (70144, 70161);
   (70163, 70187); (70272, 70278); (70280, 70280); (70282, 70285);
   (70287, 70301); (70303, 70312); (70320, 70366); (70384, 70393);
   (70405, 70412); (70415, 70416); (70419, 70440); (70442, 70448);
   (70450, 70451); (70453, 70457); (70461, 70461); (70480, 70480);
   (70493, 70497); (70656, 70708); (70727, 70730); (70736, 70745);
   (70751, 70753); (70784, 70831); (70852, 70853); (70855, 70855);
   (70864, 70873); (71040, 71086); (71128, 71131); (71168, 71215);
   (71236, 71236); (71248, 71257); (71296, 71338); (71352, 71352);
   (71360, 71369); (71424, 71450); (71472, 71483); (71488, 71494);
   (71680, 71723); (71840, 71922); (71935, 71942); (71945, 71945);
   (71948, 71955); (71957, 71958); (71960, 71983); (71999, 71999);
   (72001, 72001); (72016, 72025); (72096, 72103); (72106, 72144);
   (72161, 72161); (72163, 72163); (72192, 72192); (72203, 72242);
   (72250, 72250); (72272, 72272); (72284, 72329); (72349, 72349);
   (72368, 72440); (72704, 72712); (72714, 72750); (72768, 72768);
   (72784, 72812); (72818, 72847); (72960, 72966); (72968, 72969);
   (72971, 73008); (73030, 73030); (73040, 73049); (73056, 73061);
   (73063, 73064); (73066, 73097); (73112, 73112); (73120, 73129);
   (73440, 73458); (73648, 73648); (73664, 73684); (73728, 74649);
   (74752, 74862); (74880, 75075); (77712, 77808); (77824, 78894);
   (82944, 83526); (92160, 92728); (92736, 92766); (92768, 92777);
   (92784, 92862); (92864, 92873); (92880, 92909); (92928, 92975);
   (92992, 92995); (93008, 93017); (93019, 93025); (93027, 93047);
   (93053, 93071); (93760, 93846); (93952, 94026); (94032, 94032);
   (94099, 94111); (94176, 94177); (94179, 94179); (94208, 100343);
   (100352, 101589); (101632, 101640); (110576, 110579); (110581, 110587);
   (110589, 110590); (110592, 110882); (110928, 110930); (110948, 110951);
   (110960, 111355); (113664, 113770); (113776, 113788); (113792, 113800);
   (113808, 113817); (119520, 119539); (119648, 119672); (119808, 119892);
   (119894, 119964); (119966, 119967); (119970, 119970); (119973, 119974);
   (119977, 119980); (119982, 119993); (119995, 119995); (119997, 120003);
   (120005, 120069); (120071, 120074); (120077, 120084); (120086, 120092);
   (120094, 120121); (120123, 120126); (120128, 120132); (120134, 120134);
   (120138, 120144); (120146, 120485); (120488, 120512); (120514, 120538);
   (120540, 120570); (120572, 120596); (120598, 120628); (120630, 120654);
   (120656, 120686); (120688, 120712); (120714, 120744); (120746, 120770);
   (120772, 120779); (120782, 120831); (122624, 122654); (123136, 123180);
   (123191, 123197); (123200, 123209); (123214, 123214); (123536, 123565);
   (123584, 123627); (123632, 123641); (124896, 124902); (124904, 124907);
   (124909, 124910); (124912, 124926); (124928, 125124); (125127, 125135);
   (125184, 125251); (125259, 125259); (125264, 125273); (126065, 126123);
   (126125, 126127); (126129, 126132); (126209, 126253); (126255, 126269);
   (126464, 126467); (126469, 126495); (126497, 126498); (126500, 126500);
   (126503, 126503); (126505, 126514); (126516, 126519); (126521, 126521);
   (126523, 126523); (126530, 126530); (126535, 126535); (126537, 126537);
   (126539, 126539); (126541, 126543); (126545, 126546); (126548, 126548);
   (126551, 126551); (126553, 126553); (126555, 126555); (126557, 126557);
   (126559, 126559); (126561, 126562); (126564, 126564); (126567, 126570);
   (126572, 126578); (126580, 126583); (126585, 126588); (126590, 126590);
   (126592, 126601); (126603, 126619); (126625, 126627); (126629, 126633);
   (126635, 126651); (127232, 127244); (130032, 130041); (131072, 173791);
   (173824, 177976); (177984, 178205); (178208, 183969); (183984, 191456);
   (194560, 195101); (196608, 201546)].

(** The case-ignorable characters. *)
Definition case_ignorable : list (N * N) :=
  [(39, 39); (46, 46); (58, 58); (94, 94); (96, 96); (168, 168); (173, 173);
   (175, 175); (180, 180); (183, 184); (688, 879); (884, 885); (890, 890);
   (900, 901); (903, 903); (1155, 1161); (1369, 1369); (1375, 1375);
   (1425, 1469); (1471, 1471); (1473, 1474); (1476, 1477); (1479, 1479);
   (1524, 1524); (1536, 1541); (1552, 1562); (1564, 1564); (1600, 1600);
   (1611, 1631); (1648, 1648); (1750, 1757); (1759, 1768); (1770, 1773);
   (1807, 1807); (1809, 1809); (1840, 1866); (1958, 1968); (2027, 2037);
   (2042, 2042); (2045, 2045); (2070, 2093); (2137, 2139); (2184, 2184);
   (2192, 2193); (2200, 2207); (2249, 2306); (2362, 2362); (2364, 2364);
   (2369, 2376); (2381, 2381); (2385, 2391); (2402, 2403); (2417, 2417);
   (2433, 2433); (2492, 2492); (2497, 2500); (2509, 2509); (2530, 2531);
   (2558, 2558); (2561, 2562); (2620, 2620); (2625, 2626); (2631, 2632);
   (2635, 2637); (2641, 2641); (2672, 2673); (2677, 2677); (2689, 2690);
   (2748, 2748); (2753, 2757); (2759, 2760); (2765, 2765); (2786, 2787);
   (2810, 2815); (2817, 2817); (2876, 2876); (2879, 2879); (2881, 2884);
   (2893, 2893); (2901, 2902); (2914, 2915); (2946, 2946); (3008, 3008);
   (3021, 3021); (3072, 3072); (3076, 3076); (3132, 3132); (3134, 3136);
   (3142, 3144); (3146, 3149); (3157, 3158); (3170, 3171); (3201, 3201);
   (3260, 3260); (3263, 3263); (3270, 3270); (3276, 3277); (3298, 3299);
   (3328, 3329); (3387, 3388); (3393, 3396); (3405, 3405); (3426, 3427);
   (3457, 3457); (3530, 3530); (3538, 3540); (3542, 3542); (3633, 3633);
   (3636, 3642); (3654, 3662); (3761, 3761); (3764, 3772); (3782, 3782);
   (3784, 3789); (3864, 3865); (3893, 3893); (3895, 3895); (3897, 3897);
   (3953, 3966); (3968, 3972); (3974, 3975); (3981, 3991); (3993, 4028);
   (4038, 4038); (4141, 4144); (4146, 4151); (4153, 4154); (4157, 4158);
   (4184, 4185); (4190, 4192); (4209, 4212); (4226, 4226); (4229, 4230);
   (4237, 4237); (4253, 4253); (4348, 4348); (4957, 4959); (5906, 5908);
   (5938, 5939); (5970, 5971); (6002, 6003); (6068, 6069); (6071, 6077);
   (6086, 6086); (6089, 6099); (6103, 6103); (6109, 6109); (6155, 6159);
   (6211, 6211); (6277, 6278); (6313, 6313); (6432, 6434); (6439, 6440);
   (6450, 6450); (6457, 6459); (6679, 6680); (6683, 6683); (6742, 6742);
   (6744, 6750); (6752, 6752); (6754, 6754); (6757, 6764); (6771, 6780);
   (6783, 6783); (6823, 6823); (6832, 6862); (6912, 6915); (6964, 6964);
   (6966, 6970); (6972, 6972); (6978, 6978); (7019, 7027); (7040, 7041);
   (7074, 7077); (7080, 7081); (7083, 7085); (7142, 7142); (7144, 7145);
   (7149, 7149); (7151, 7153); (7212, 7219); (7222, 7223); (7288, 7293);
   (7376, 7378); (7380, 7392); (7394, 7400); (7405, 7405); (7412, 7412);
   (7416, 7417); (7468, 7530); (7544, 7544); (7579, 7679); (8125, 8125);
   (8127, 8129); (8141, 8143); (8157, 8159); (8173, 8175); (8189, 8190);
   (8203, 8207); (8216, 8217); (8228, 8228); (8231, 8231); (8234, 8238);
   (8288, 8292); (8294, 8303); (8305, 8305); (8319, 8319); (8336, 8348);
   (8400, 8432); (11388, 11389); (11503, 11505); (11631, 11631);
   (11647, 11647); (11744, 11775); (11823, 11823); (12293, 12293);
   (12330, 12333); (12337, 12341); (12347, 12347); (12441, 12446);
   (12540, 12542); (40981, 40981); (42232, 42237); (42508, 42508);
   (42607, 42610); (42612, 42621); (42623, 42623); (42652, 42655);
   (42736, 42737); (42752, 42785); (42864, 42864); (42888, 42890);
   (42994, 42996); (43000, 43001); (43010, 43010); (43014, 43014);
   (43019, 43019); (43045, 43046); (43052, 43052); (43204, 43205);
   (43232, 43249); (43263, 43263); (43302, 43309); (43335, 43345);
   (43392, 43394); (43443, 43443); (43446, 43449); (43452, 43453);
   (43471, 43471); (43493, 43494); (43561, 43566); (43569, 43570);
   (43573, 43574); (43587, 43587); (43596, 43596); (43632, 43632);
   (43644, 43644); (43696, 43696); (43698, 43700); (43703, 43704);
   (43710, 43711); (43713, 43713); (43741, 43741); (43756, 43757);
   (43763, 43764); (43766, 43766); (43867, 43871); (43881, 43883);
   (44005, 44005); (44008, 44008); (44013, 44013); (64286, 64286);
   (64434, 64450); (65024, 65039); (65043, 65043); (65056, 65071);
   (65106, 65106); (65109, 65109); (65279, 65279); (65287, 65287);
   (65294, 65294); (65306, 65306); (65342, 65342); (65344, 65344);
   (65392, 65392); (65438, 65439); (65507, 65507); (65529, 65531);
   (66045, 66045); (66272, 66272); (66422, 66426); (67456, 67461);
   (67463, 67504); (67506, 67514); (68097, 68099); (68101, 68102);
   (68108, 68111); (68152, 68154); (68159, 68159); (68325, 68326);
   (68900, 68903); (69291, 69292); (69446, 69456); (69506, 69509);
   (69633, 69633); (69688, 69702); (69744, 69744); (69747, 69748);
   (69759, 69761); (69811, 69814); (69817, 69818); (69821, 69821);
   (69826, 69826); (69837, 69837); (69888, 69890); (69927, 69931);
   (69933, 69940); (70003, 70003); (70016, 70017); (70070, 70078);
   (70089, 70092); (70095, 70095); (70191, 70193); (70196, 70196);
   (70198, 70199); (70206, 70206); (70367, 70367); (70371, 70378);
   (70400, 70401); (70459, 70460); (70464, 70464); (70502, 70508);
   (70512, 70516); (70712, 70719); (70722, 70724); (70726, 70726);
   (70750, 70750); (70835, 70840); (70842, 70842); (70847, 70848);
   (70850, 70851); (71090, 71093); (71100, 71101); (71103, 71104);
   (71132, 71133); (71219, 71226); (71229, 71229); (71231, 71232);
   (71339, 71339); (71341, 71341); (71344, 71349); (71351, 71351);
   (71453, 71455); (71458, 71461); (71463, 71467); (71727, 71735);
   (71737, 71738); (71995, 71996); (71998, 71998); (72003, 72003);
   (72148, 72151); (72154, 72155); (72160, 72160); (72193, 72202);
   (72243, 72248); (72251, 72254); (72263, 72263); (72273, 72278);
   (72281, 72283); (72330, 72342); (72344, 72345); (72752, 72758);
   (72760, 72765); (72767, 72767); (72850, 72871); (72874, 72880);
   (72882, 72883); (72885, 72886); (73009, 73014); (73018, 73018);
   (73020, 73021); (73023, 73029); (73031, 73031); (73104, 73105);
   (73109, 73109); (73111, 73111); (73459, 73460); (78896, 78904);
   (92912, 92916); (92976, 92982); (92992, 92995); (94031, 94031);
   (94095, 94111); (94176, 94177); (94179, 94180); (110576, 110579);
   (110581, 110587); (110589, 110590); (113821, 113822); (113824, 113827);
   (118528, 118573); (118576, 118598); (119143, 119145); (119155, 119170);
   (119173, 119179); (119210, 119213); (119362, 119364); (121344, 121398);
   (121403, 121452); (121461, 121461); (121476, 121476); (121499, 121503);
   (121505, 121519); (122880, 122886); (122888, 122904); (122907, 122913);
   (122915, 122916); (122918, 122922); (123184, 123197); (123566, 123566);
   (123628, 123631); (125136, 125142); (125252, 125259); (127995, 127999);
   (917505, 917505); (917536, 917631); (917760, 917999)].

(** The cased characters: lower case, upper case or title case. *)
Definition cased : list (N * N) :=
  [(65, 90); (97, 122); (170, 170); (181, 181); (186, 186); (192, 214);
   (216, 246); (248, 442); (444, 447); (452, 659); (661, 696); (704, 705);
   (736, 740); (837, 837); (880, 883); (886, 887); (890, 893); (895, 895);
   (902, 902); (904, 906); (908, 908); (910, 929); (931, 1013); (1015, 1153);
   (1162, 1327); (1329, 1366); (1376, 1416); (4256, 4293); (4295, 4295);
   (4301, 4301); (4304, 4346); (4349, 4351); (5024, 5109); (5112, 5117);
   (7296, 7304); (7312, 7354); (7357, 7359); (7424, 7615); (7680, 7957);
   (7960, 7965); (7968, 8005); (8008, 8013); (8016, 8023); (8025, 8025);
   (8027, 8027); (8029, 8029); (8031, 8061); (8064, 8116); (8118, 8124);
   (8126, 8126); (8130, 8132); (8134, 8140); (8144, 8147); (8150, 8155);
   (8160, 8172); (8178, 8180); (8182, 8188); (8305, 8305); (8319, 8319);
   (8336, 8348); (8450, 8450); (8455, 8455); (8458, 8467); (8469, 8469);
   (8473, 8477); (8484, 8484); (8486, 8486); (8488, 8488); (8490, 8493);
   (8495, 8500); (8505, 8505); (8508, 8511); (8517, 8521); (8526, 8526);
   (8544, 8575); (8579, 8580); (9398, 9449); (11264, 11492); (11499, 11502);
   (11506, 11507); (11520, 11557); (11559, 11559); (11565, 11565);
   (42560, 42605); (42624, 42653); (42786, 42887); (42891, 42894);
   (42896, 42954); (42960, 42961); (42963, 42963); (42965, 42969);
   (42997, 42998); (43000, 43002); (43824, 43866); (43868, 43880);
   (43888, 43967); (64256, 64262); (64275, 64279); (65313, 65338);
   (65345, 65370); (66560, 66639); (66736, 66771); (66776, 66811);
   (66928, 66938); (66940, 66954); (66956, 66962); (66964, 66965);
   (66967, 66977); (66979, 66993); (66995, 67001); (67003, 67004);
   (67456, 67456); (67459, 67461); (67463, 67504); (67506, 67514);
   (68736, 68786); (68800, 68850); (71840, 71903); (93760, 93823);
   (119808, 119892); (119894, 119964); (119966, 119967); (119970, 119970);
   (119973, 119974); (119977, 119980); (119982, 119993); (119995, 119995);
   (119997, 120003); (120005, 120069); (120071, 120074); (120077, 120084);
   (120086, 120092); (120094, 120121); (120123, 120126); (120128, 120132);
   (120134, 120134); (120138, 120144); (120146, 120485); (120488, 120512);
   (120514, 120538); (120540, 120570); (120572, 120596); (120598, 120628);
   (120630, 120654); (120656, 120686); (120688, 120712); (120714, 120744);
   (120746, 120770); (120772, 120779); (122624, 122633); (122635, 122654);
   (125184, 125251); (127280, 127305); (127312, 127337); (127344, 127369)].

(** The characters with a lower case of their own: from [lo] to [hi] in
    steps of [step], the first of them having the lower case [to] and each
    the lower case as far above [to] as it is above [lo]; entries
    [(lo, hi, step, to)] in ascending order of [lo]. *)
Definition lower_table : list (N * N * N * N) :=
  [(65, 90, 1, 97); (192, 214, 1, 224); (216, 222, 1, 248); (256, 302, 2, 257);
   (304, 304, 1, 105); (306, 310, 2, 307); (313, 327, 2, 314);
   (330, 374, 2, 331); (376, 376, 1, 255); (377, 381, 2, 378);
   (385, 385, 1, 595); (386, 388, 2, 387); (390, 390, 1, 596);
   (391, 391, 1, 392); (393, 394, 1, 598); (395, 395, 1, 396);
   (398, 398, 1, 477); (399, 399, 1, 601); (400, 400, 1, 603);
   (401, 401, 1, 402); (403, 403, 1, 608); (404, 404, 1, 611);
   (406, 406, 1, 617); (407, 407, 1, 616); (408, 408, 1, 409);
   (412, 412, 1, 623); (413, 413, 1, 626); (415, 415, 1, 629);
   (416, 420, 2, 417); (422, 422, 1, 640); (423, 423, 1, 424);
   (425, 425, 1, 643); (428, 428, 1, 429); (430, 430, 1, 648);
   (431, 431, 1, 432); (433, 434, 1, 650); (435, 437, 2, 436);
   (439, 439, 1, 658); (440, 440, 1, 441); (444, 444, 1, 445);
   (452, 452, 1, 454); (453, 453, 1, 454); (455, 455, 1, 457);
   (456, 456, 1, 457); (458, 458, 1, 460); (459, 475, 2, 460);
   (478, 494, 2, 479); (497, 497, 1, 499); (498, 500, 2, 499);
   (502, 502, 1, 405); (503, 503, 1, 447); (504, 542, 2, 505);
   (544, 544, 1, 414); (546, 562, 2, 547); (570, 570, 1, 11365);
   (571, 571, 1, 572); (573, 573, 1, 410); (574, 574, 1, 11366);
   (577, 577, 1, 578); (579, 579, 1, 384); (580, 580, 1, 649);
   (581, 581, 1, 652); (582, 590, 2, 583); (880, 882, 2, 881);
   (886, 886, 1, 887); (895, 895, 1, 1011); (902, 902, 1, 940);
   (904, 906, 1, 941); (908, 908, 1, 972); (910, 911, 1, 973);
   (913, 929, 1, 945); (931, 939, 1, 963); (975, 975, 1, 983);
   (984, 1006, 2, 985); (1012, 1012, 1, 952); (1015, 1015, 1, 1016);
   (1017, 1017, 1, 1010); (1018, 1018, 1, 1019); (1021, 1023, 1, 891);
   (1024, 1039, 1, 1104); (1040, 1071, 1, 1072); (1120, 1152, 2, 1121);
   (1162, 1214, 2, 1163); (1216, 1216, 1, 1231); (1217, 1229, 2, 1218);
   (1232, 1326, 2, 1233); (1329, 1366, 1, 1377); (4256, 4293, 1, 11520);
   (4295, 4295, 1, 11559); (4301, 4301, 1, 11565); (5024, 5103, 1, 43888);
   (5104, 5109, 1, 5112); (7312, 7354, 1, 4304); (7357, 7359, 1, 4349);
   (7680, 7828, 2, 7681); (7838, 7838, 1, 223); (7840, 7934, 2, 7841);
   (7944, 7951, 1, 7936); (7960, 7965, 1, 7952); (7976, 7983, 1, 7968);
   (7992, 7999, 1, 7984); (8008, 8013, 1, 8000); (8025, 8031, 2, 8017);
   (8040, 8047, 1, 8032); (8072, 8079, 1, 8064); (8088, 8095, 1, 8080);
   (8104, 8111, 1, 8096); (8120, 8121, 1, 8112); (8122, 8123, 1, 8048);
   (8124, 8124, 1, 8115); (8136, 8139, 1, 8050); (8140, 8140, 1, 8131);
   (8152, 8153, 1, 8144); (8154, 8155, 1, 8054); (8168, 8169, 1, 8160);
   (8170, 8171, 1, 8058); (8172, 8172, 1, 8165); (8184, 8185, 1, 8056);
   (8186, 8187, 1, 8060); (8188, 8188, 1, 8179); (8486, 8486, 1, 969);
   (8490, 8490, 1, 107); (8491, 8491, 1, 229); (8498, 8498, 1, 8526);
   (8544, 8559, 1, 8560); (8579, 8579, 1, 8580); (9398, 9423, 1, 9424);
   (11264, 11311, 1, 11312); (11360, 11360, 1, 11361); (11362, 11362, 1, 619);
   (11363, 11363, 1, 7549); (11364, 11364, 1, 637); (11367, 11371, 2, 11368);
   (11373, 11373, 1, 593); (11374, 11374, 1, 625); (11375, 11375, 1, 592);
   (11376, 11376, 1, 594); (11378, 11378, 1, 11379); (11381, 11381, 1, 11382);
   (11390, 11391, 1, 575); (11392, 11490, 2, 11393); (11499, 11501, 2, 11500);
   (11506, 11506, 1, 11507); (42560, 42604, 2, 42561);
   (42624, 42650, 2, 42625); (42786, 42798, 2, 42787);
   (42802, 42862, 2, 42803); (42873, 42875, 2, 42874); (42877, 42877, 1, 7545);
   (42878, 42886, 2, 42879); (42891, 42891, 1, 42892); (42893, 42893, 1, 613);
   (42896, 42898, 2, 42897); (42902, 42920, 2, 42903); (42922, 42922, 1, 614);
   (42923, 42923, 1, 604); (42924, 42924, 1, 609); (42925, 42925, 1, 620);
   (42926, 42926, 1, 618); (42928, 42928, 1, 670); (42929, 42929, 1, 647);
   (42930, 42930, 1, 669); (42931, 42931, 1, 43859); (42932, 42946, 2, 42933);
   (42948, 42948, 1, 42900); (42949, 42949, 1, 642); (42950, 42950, 1, 7566);
   (42951, 42953, 2, 42952); (42960, 42960, 1, 42961);
   (42966, 42968, 2, 42967); (42997, 42997, 1, 42998);
   (65313, 65338, 1, 65345); (66560, 66599, 1, 66600);
   (66736, 66771, 1, 66776); (66928, 66938, 1, 66967);
   (66940, 66954, 1, 66979); (66956, 66962, 1, 66995);
   (66964, 66965, 1, 67003); (68736, 68786, 1, 68800);
   (71840, 71871, 1, 71872); (93760, 93791, 1, 93792);
   (125184, 125217, 1, 125218)].

Fixpoint lower_in (c : N) (table : list (N * N * N * N)) : N :=
  match table with
  | [] => c
  | (lo, hi, step, to) :: table' =>
      if c <? lo then c
      else if (c <=? hi) && ((c - lo) mod step =? 0) then to + (c - lo)
      else lower_in c table'
  end.

(** The simple lower case of a character. *)
Definition lower_one (c : N) : N := lower_in c lower_table.

End Unicode.

(** ** Python strings *)

Module PyStr.

Local Open Scope N_scope.

Definition char := N.
Definition str := list char.

(** An ASCII literal of the source as a [str]. *)
Definition py (s : String.string) : str :=
  List.map N_of_ascii (String.list_ascii_of_string s).

Arguments py s%_string_scope.

Definition between (lo hi c : N) : bool := (lo <=? c) && (c <=? hi).

Definition char_eqb : char -> char -> bool := N.eqb.

Fixpoint eqb (a b : str) : bool :=
  match a, b with
  | [], [] => true
  | x :: a', y :: b' => char_eqb x y && eqb a' b'
  | _, _ => false
  end.

(** [str.isspace] on one character: the table of CPython's
    [_PyUnicode_IsWhitespace]. *)
Definition isspace (c : char) : bool :=
  between 0x09 0x0D c || between 0x1C 0x20 c
  || char_eqb c 0x85 || char_eqb c 0xA0 || char_eqb c 0x1680
  || between 0x2000 0x200A c || char_eqb c 0x2028 || char_eqb c 0x2029
  || char_eqb c 0x202F || char_eqb c 0x205F || char_eqb c 0x3000.

(** The lower case of one character: one character, but for U+0130, the
    capital I with a dot, which gives an i and a combining dot. *)
Definition lower_full (c : char) : str :=
  if char_eqb c 0x130 then [0x69; 0x307] else [Unicode.lower_one c].

(** The first character of [s] that is not case-ignorable. *)
Fixpoint skip_ignorable (s : str) : option char :=
  match s with
  | [] => None
  | c :: s' =>
      if Unicode.in_ranges c Unicode.case_ignorable then skip_ignorable s'
      else Some c
  end.

(** A capital sigma is final when a cased character stands before it and
    none after it, case-ignorable characters left aside; [before] is the
    text before the sigma, last character first. *)
Definition final_sigma (before after : str) : bool :=
  match skip_ignorable before with
  | Some c =>
      Unicode.in_ranges c Unicode.cased
      && match skip_ignorable after with
         | Some d => negb (Unicode.in_ranges d Unicode.cased)
         | None => true
         end
  | None => false
  end.

(** The lower case of [s], which follows [before] (last character first):
    the capital sigma U+03A3 becomes the final sigma U+03C2 or the sigma
    U+03C3, every other character its own lower case. *)
Fixpoint lower_from (before s : str) : str :=
  match s with
  | [] => []
  | c :: s' =>
      (if char_eqb c 0x3A3
       then [if final_sigma before s' then 0x3C2 else 0x3C3]
       else lower_full c)
      ++ lower_from (c :: before) s'
  end.

(** [s.lower()] *)
Definition lower (s : str) : str := lower_from [] s.

(** [c] is its own lower case. *)
Definition is_lowered (c : char) : bool := char_eqb (Unicode.lower_one c) c.

(** [len(s) > 0], the truth value of a string. *)
Definition truthy (s : str) : bool :=
  match s with [] => false | _ :: _ => true end.

(** [c in chars] for a character. *)
Definition char_in (chars : str) (c : char) : bool :=
  existsb (char_eqb c) chars.

Fixpoint lstrip_by (p : char -> bool) (s : str) : str :=
  match s with
  | c :: s' => if p c then lstrip_by p s' else s
  | [] => []
  end.

Definition rstrip_by (p : char -> bool) (s : str) : str :=
  rev (lstrip_by p (rev s)).

Definition strip_by (p : char -> bool) (s : str) : str :=
  rstrip_by p (lstrip_by p s).

(** [s.strip()] *)
Definition strip (s : str) : str := strip_by isspace s.

(** [s.strip(chars)] *)
Definition strip_chars (chars s : str) : str := strip_by (char_in chars) s.

(** [s.split()]: the maximal runs of characters that are not white space.
    [w] is the run being read, last character first. *)
Fixpoint split_ws_from (w : str) (s : str) : list str :=
  match s with
  | [] => if truthy w then [rev w] else []
  | c :: s' =>
      if isspace c
      then (if truthy w then rev w :: split_ws_from [] s'
            else split_ws_from [] s')
      else split_ws_from (c :: w) s'
  end.

Definition split_ws (s : str) : list str := split_ws_from [] s.

(** [s.split(sep)] for a separator of one character: empty segments are
    kept, and the empty string gives one empty segment. *)
Fixpoint split_on_from (sep : char) (w : str) (s : str) : list str :=
  match s with
  | [] => [rev w]
  | c :: s' =>
      if char_eqb c sep then rev w :: split_on_from sep [] s'
      else split_on_from sep (c :: w) s'
  end.

Definition split_on (sep : char) (s : str) : list str :=
  split_on_from sep [] s.

(** [sep.join(parts)] *)
Fixpoint join (sep : str) (parts : list str) : str :=
  match parts with
  | [] => []
  | [p] => p
  | p :: ps => p ++ sep ++ join sep ps
  end.

Fixpoint startswith (p s : str) : bool :=
  match p, s with
  | [], _ => true
  | x :: p', y :: s' => char_eqb x y && startswith p' s'
  | _ :: _, [] => false
  end.

(** [p in s] for strings: [p] occurs in [s] as a substring. *)
Fixpoint contains (p s : str) : bool :=
  startswith p s
  || match s with
     | [] => false
     | _ :: s' => contains p s'
     end.

(** [x in xs] for a list or set of strings. *)
Definition mem (x : str) (xs : list str) : bool := existsb (eqb x) xs.

End PyStr.
Import PyStr.

(** ** [collections.Counter] *)

Module Collections.

(** A counter keeps its keys in the order they were first counted (it is a
    [dict]). *)
Definition counter := list (str * nat).

Fixpoint count_one (w : str) (c : counter) : counter :=
  match c with
  | [] => [(w, 1)]
  | (k, n) :: c' =>
      if PyStr.eqb k w then (k, S n) :: c' else (k, n) :: count_one w c'
  end.

(** [Counter(ws)] *)
Definition Counter (ws : list str) : counter :=
  fold_left (fun c w => count_one w c) ws [].

(** One step of [sorted(items, key=count, reverse=True)]: [x] stood before
    every entry of [l] and goes before the first entry whose count is not
    larger than its own, so entries of equal count keep their order. *)
Fixpoint insert_desc (x : str * nat) (l : counter) : counter :=
  match l with
  | [] => [x]
  | y :: l' => if snd x <? snd y then y :: insert_desc x l' else x :: l
  end.

Definition sorted_desc (c : counter) : counter :=
  fold_right insert_desc [] c.

(** [c.most_common(n)] for [n] other than 1: [heapq.nlargest], which is
    [sorted(c.items(), key=count, reverse=True)[:n]]. *)
Definition most_common (n : nat) (c : counter) : counter :=
  firstn n (sorted_desc c).

End Collections.

(** ** [re]: a backtracking matcher for the constructs of the three
    entity patterns *)

Module Re.

Local Open Scope N_scope.

Inductive regex :=
| Empty
| Boundary                                    (* \b *)
| Class (cls : char -> bool)                  (* one character of a class *)
| Repeat (cls : char -> bool) (lo : nat) (hi : option nat)
                                              (* cls{lo,hi}, greedy *)
| Maybe (r : regex)                           (* (?:r)? , greedy *)
| Seq (r1 r2 : regex)
| Or (r1 r2 : regex).                         (* r1|r2, r1 tried first *)

Definition cat (rs : list regex) : regex := fold_right Seq Empty rs.

(** [\d] and [\w] of a [str] pattern. *)
Definition is_digit (c : char) : bool :=
  Unicode.in_ranges c Unicode.decimal_digits.

Definition is_word (c : char) : bool :=
  Unicode.in_ranges c Unicode.word_characters.

(** A position of the matcher in the subject: the character before it (none
    at the start of the text), the characters taken by the match so far,
    last first, and the text still ahead. *)
Record pos := { prev : option char; taken : str; rest : str }.

Definition word_at (o : option char) : bool :=
  match o with Some c => is_word c | None => false end.

Definition at_boundary (p : pos) : bool :=
  xorb (word_at (prev p)) (word_at (hd_error (rest p))).

Definition more (hi : option nat) : bool :=
  match hi with Some 0%nat => false | _ => true end.

Definition less (hi : option nat) : option nat :=
  match hi with Some n => Some (Nat.pred n) | None => None end.

(** [cls{lo,hi}] from a position, then [k]: as many characters as allowed
    are taken first, and one is given back each time the rest of the
    pattern fails. *)
Fixpoint repeat_here (cls : char -> bool) (lo : nat) (hi : option nat)
    (pv : option char) (tk s : str) (k : pos -> option pos) : option pos :=
  let stop :=
    match lo with
    | 0%nat => k {| prev := pv; taken := tk; rest := s |}
    | S _ => None
    end in
  match s with
  | c :: s' =>
      if cls c && more hi then
        match repeat_here cls (Nat.pred lo) (less hi) (Some c) (c :: tk) s' k with
        | Some q => Some q
        | None => stop
        end
      else stop
  | [] => stop
  end.

(** The pattern [r] from position [p], then [k] on what is left. *)
Fixpoint match_here (r : regex) (p : pos) (k : pos -> option pos)
    : option pos :=
  match r with
  | Empty => k p
  | Boundary => if at_boundary p then k p else None
  | Class cls =>
      match rest p with
      | c :: s' =>
          if cls c
          then k {| prev := Some c; taken := c :: taken p; rest := s' |}
          else None
      | [] => None
      end
  | Repeat cls lo hi => repeat_here cls lo hi (prev p) (taken p) (rest p) k
  | Maybe r1 =>
      match match_here r1 p k with
      | Some q => Some q
      | None => k p
      end
  | Seq r1 r2 => match_here r1 p (fun q => match_here r2 q k)
  | Or r1 r2 =>
      match match_here r1 p k with
      | Some q => Some q
      | None => match_here r2 p k
      end
  end.

(** The least number of characters a match of [r] takes. *)
Fixpoint min_take (r : regex) : nat :=
  match r with
  | Empty | Boundary | Maybe _ => 0
  | Class _ => 1
  | Repeat _ lo _ => lo
  | Seq r1 r2 => min_take r1 + min_take r2
  | Or r1 r2 => Nat.min (min_take r1) (min_take r2)
  end.

(** The scan of [re.findall] for a pattern without groups: the match at the
    leftmost position, then the scan from its end.  Each step leaves less
    text ahead, so [fuel] above the length of the text is never used up.  A
    match that takes no character is listed and stepped over by one
    character; the analyzer's patterns take at least two ([min_take]). *)
Fixpoint findall_from (fuel : nat) (r : regex) (pv : option char) (s : str)
    : list str :=
  match fuel with
  | O => []
  | S fuel' =>
      match match_here r {| prev := pv; taken := []; rest := s |} Some with
      | Some q =>
          if (length (rest q) <? length s)%nat
          then rev (taken q) :: findall_from fuel' r (prev q) (rest q)
          else
            match s with
            | [] => [[]]
            | c :: s' => [] :: findall_from fuel' r (Some c) s'
            end
      | None =>
          match s with
          | [] => []
          | c :: s' => findall_from fuel' r (Some c) s'
          end
      end
  end.

(** [re.findall(r, s)] *)
Definition findall (r : regex) (s : str) : list str :=
  findall_from (S (length s)) r None s.

Definition one_of (chars : String.string) : char -> bool := char_in (py chars).

Arguments one_of chars%_string_scope c.

Definition alnum (c : char) : bool :=
  between 0x41 0x5A c || between 0x61 0x7A c || between 0x30 0x39 c.

(** [\b\d{1,2}[/-]\d{1,2}[/-]\d{2,4}\b|\b\d{4}\b] *)
Definition date_pattern : regex :=
  Or (cat [Boundary; Repeat is_digit 1 (Some 2%nat); Class (one_of "/-");
           Repeat is_digit 1 (Some 2%nat); Class (one_of "/-");
           Repeat is_digit 2 (Some 4%nat); Boundary])
     (cat [Boundary; Repeat is_digit 4 (Some 4%nat); Boundary]).

(** [\b\d+(?:\.\d+)?%\b] *)
Definition percentage_pattern : regex :=
  cat [Boundary; Repeat is_digit 1 None;
       Maybe (cat [Class (one_of "."); Repeat is_digit 1 None]);
       Class (one_of "%"); Boundary].

(** [\b[A-Za-z0-9._%+-]+@[A-Za-z0-9.-]+\.[A-Z|a-z]{2,}\b]; the last class
    holds the bar as well as the letters. *)
Definition email_pattern : regex :=
  cat [Boundary;
       Repeat (fun c => alnum c || one_of "._%+-" c) 1 None;
       Class (one_of "@");
       Repeat (fun c => alnum c || one_of ".-" c) 1 None;
       Class (one_of ".");
       Repeat (fun c => between 0x41 0x5A c || one_of "|" c
                        || between 0x61 0x7A c) 2 None;
       Boundary].

End Re.

(** ** The interpreter: exceptions, the clock, optional modules, sets *)

Module Py.

(** The values the [readability] entry can hold. *)
Inductive value :=
| PyNone
| PyInt (z : Z)
| PyFloat (x : float).

Inductive exn :=
| ImportError
| Exception (tag : nat).

Inductive outcome (A : Type) :=
| Returned (a : A)
| Raised (e : exn).

Arguments Returned {A} a.
Arguments Raised {A} e.

(** What a computation reads and changes outside its arguments: the wall
    clock, as the sequence of its readings and the number read so far. *)
Record World := { clock : nat -> float; reads : nat }.

Definition M (A : Type) : Type := World -> outcome A * World.

Definition ret {A} (a : A) : M A := fun w => (Returned a, w).

Definition raise {A} (e : exn) : M A := fun w => (Raised e, w).

Definition bind {A B} (m : M A) (f : A -> M B) : M B :=
  fun w =>
    match m w with
    | (Returned a, w') => f a w'
    | (Raised e, w') => (Raised e, w')
    end.

(** [try: body / except: handler], the bare [except] that takes every
    exception. *)
Definition try_except {A} (body : M A) (handler : exn -> M A) : M A :=
  fun w =>
    match body w with
    | (Returned a, w') => (Returned a, w')
    | (Raised e, w') => handler e w'
    end.

Definition call {A} (o : outcome A) : M A := fun w => (o, w).

(** [time.time()] *)
Definition time_time : M float :=
  fun w => (Returned (clock w (reads w)),
            {| clock := clock w; reads := S (reads w) |}).

(** The order in which [list(set(xs))] lists the elements of [xs]: each
    element once, in an order fixed by the string hashes of the running
    interpreter. *)
Record set_order := {
  listing : list str -> list str;
  listing_NoDup : forall xs, NoDup (listing xs);
  listing_In : forall xs x, In x (listing xs) <-> In x xs
}.

(** The interpreter the analyzer runs in: the [textstat] module's
    [flesch_reading_ease] when the module can be imported, and the order of
    its sets. *)
Record Runtime := {
  textstat : option (str -> outcome float);
  set_listing : set_order
}.

(** [import textstat] *)
Definition import_textstat (rt : Runtime) : M (str -> outcome float) :=
  match textstat rt with
  | Some flesch_reading_ease => ret flesch_reading_ease
  | None => raise ImportError
  end.

(** [list(set(xs))] *)
Definition list_set (rt : Runtime) (xs : list str) : list str :=
  listing (set_listing rt) xs.

(** The value of a computation that has been run, when it returned one. *)
Definition returned {A} (r : outcome A * World) : option A :=
  match r with
  | (Returned a, _) => Some a
  | (Raised _, _) => None
  end.

End Py.
Import Py.

Notation "x <- m ;; k" := (bind m (fun x => k))
  (at level 61, m at next level, right associativity).

(** ** The analyzer *)

(** The dictionary [analyze_document] returns. *)
Record AnalysisRecord := {
  filename : str;
  word_count : nat;
  char_count : nat;
  doc_type : str;
  readability : value;
  topics : list str;
  summary : str;
  dates : list str;
  percentages : list str;
  emails : list str;
  processing_time : float
}.

(** The five labels: an icon, a space and the name of the class. *)
Definition academic_paper : str := 0x1F4DA%N :: py " Academic Paper".
Definition business_document : str := 0x1F4BC%N :: py " Business Document".
Definition literary_work : str := 0x1F4D6%N :: py " Literary Work".
Definition short_document : str := 0x1F4DD%N :: py " Short Document".
Definition general_document : str := 0x1F4C4%N :: py " General Document".

Definition academic_words : list str :=
  [py "abstract"; py "introduction"; py "methodology"; py "conclusion"].
Definition business_words : list str :=
  [py "executive"; py "business"; py "market"; py "strategy"].
Definition literary_words : list str :=
  [py "chapter"; py "novel"; py "story"].

Definition stop_words : list str :=
  [py "the"; py "and"; py "are"; py "for"; py "with"; py "this"; py "that";
   py "from"; py "they"; py "have"; py "been"; py "will"; py "can";
   py "was"; py "were"; py "not"; py "you"; py "your"; py "but"; py "all";
   py "may"; py "said"; py "each"; py "which"; py "their"; py "time"].

(** The argument of [strip]: the characters . , ! ? ; : the double quote
    ( ) [ ] *)
Definition punctuation : str := py ".,!?;:" ++ [0x22%N] ++ py "()[]".

(** [any(word in text for word in words)] *)
Definition any_in (words : list str) (text : str) : bool :=
  existsb (fun word => contains word text) words.

Definition analyze_document (rt : Runtime) (text filename : str)
    : M AnalysisRecord :=
  start_time <- time_time ;;
  (* Basic stats *)
  let words := if truthy text then split_ws text else [] in
  let word_count := length words in
  let char_count := length text in
  (* Document type detection *)
  let text_lower := lower text in
  let doc_type :=
    if any_in academic_words text_lower then academic_paper
    else if any_in business_words text_lower then business_document
    else if any_in literary_words text_lower then literary_work
    else if word_count <? 100 then short_document
    else general_document in
  (* Readability score: the variable holds 0 until the one assignment at
     the end of the try block, so it still holds 0 when the block raises *)
  let readability := PyInt 0 in
  readability <-
    try_except
      (flesch_reading_ease <- import_textstat rt ;;
       if truthy text
       then score <- call (flesch_reading_ease text) ;; ret (PyFloat score)
       else ret readability)
      (fun _ => ret readability) ;;
  (* Key topics (frequent words) *)
  let clean_words :=
    map (fun w => strip_chars punctuation (lower w))
        (filter (fun w => (3 <? length w) && negb (mem (lower w) stop_words))
                words) in
  let topics :=
    map fst (Collections.most_common 8 (Collections.Counter clean_words)) in
  (* Simple summary (first two sentences) *)
  let sentences :=
    map strip (filter (fun s => truthy (strip s)) (split_on 0x2E%N text)) in
  let summary :=
    if 2 <=? length sentences
    then join (py ". ") (firstn 2 sentences) ++ py "."
    else firstn 200 text ++ py "..." in
  (* Extract entities *)
  let dates := Re.findall Re.date_pattern text in
  let percentages := Re.findall Re.percentage_pattern text in
  let emails := Re.findall Re.email_pattern text in
  end_time <- time_time ;;
  let processing_time := PrimFloat.sub end_time start_time in
  ret {| filename := filename;
         word_count := word_count;
         char_count := char_count;
         doc_type := doc_type;
         readability := readability;
         topics := topics;
         summary := summary;
         dates := firstn 5 (list_set rt dates);
         percentages := firstn 5 (list_set rt percentages);
         emails := firstn 3 (list_set rt emails);
         processing_time := processing_time |}.

(** ** Two interpreters to run the analyzer in *)

Definition str_eq_dec : forall a b : str, {a = b} + {a <> b} :=
  list_eq_dec N.eq_dec.

(** A set order: the elements as [nodup] leaves them. *)
Definition plain_order : set_order :=
  {| listing := nodup str_eq_dec;
     listing_NoDup := NoDup_nodup str_eq_dec;
     listing_In := fun xs x => nodup_In str_eq_dec xs x |}.

(** The same order read from the other end. *)
Definition reversed_order : set_order :=
  {| listing := fun xs => rev (nodup str_eq_dec xs);
     listing_NoDup := fun xs => NoDup_rev (NoDup_nodup str_eq_dec xs);
     listing_In := fun xs x =>
       iff_trans (iff_sym (in_rev (nodup str_eq_dec xs) x))
                 (nodup_In str_eq_dec xs x) |}.

(** No [textstat] installed. *)
Definition bare_runtime : Runtime :=
  {| textstat := None; set_listing := plain_order |}.

(** [textstat] installed; its score is not computed here, every text gets
    [score]. *)
Definition scoring_runtime (score : float) : Runtime :=
  {| textstat := Some (fun _ => Returned score); set_listing := plain_order |}.

Definition reversed_runtime : Runtime :=
  {| textstat := None; set_listing := reversed_order |}.

Definition epoch : World := {| clock := fun _ => 0%float; reads := 0 |}.

Definition scenario : str :=
  py "Contact john@example.com on 12/05/2023. Growth was 18.5%. Revenue increased 18% year-over-year.".

(** The "Business Report" sample the application offers (streamlit.py,
    line 240). *)
Definition business_report : str :=
  py "Executive Summary: Q3 financial results show strong growth across all business segments. Revenue increased 18% year-over-year to $2.4 billion, driven by digital transformation initiatives. Market expansion in Asia-Pacific region contributed 25% of total growth. Strategic recommendations include investing in cloud infrastructure and expanding our e-commerce platform. Customer satisfaction scores improved to 89%, reflecting our commitment to service excellence.".

(** The fields that do not read the clock, as a tuple. *)
Definition timeless (r : AnalysisRecord) :=
  (filename r, word_count r, char_count r, doc_type r, readability r,
   topics r, summary r, dates r, percentages r, emails r).

(** The summary as the specification words it: split on the full stop, trim
    every segment, drop the empty ones; then the first two, or the first 200
    characters of the text. *)
Definition summary_spec (text : str) : str :=
  match filter truthy (map strip (split_on 0x2E%N text)) with
  | first :: second :: _ => first ++ py ". " ++ second ++ py "."
  | _ => firstn 200 text ++ py "..."
  end.

(** The names of the five classes, without icons. *)
Definition class_names : list str :=
  [py "Academic Paper"; py "Business Document"; py "Literary Work";
   py "Short Document"; py "General Document"].

Definition labels : list str :=
  [academic_paper; business_document; literary_work; short_document;
   general_document].

(** ** What a run of the analyzer returns *)

(** The value of [readability] after the try block. *)
Definition score_of (rt : Runtime) (text : str) : value :=
  match textstat rt with
  | Some flesch_reading_ease =>
      if truthy text then
        match flesch_reading_ease text with
        | Returned score => PyFloat score
        | Raised _ => PyInt 0
        end
      else PyInt 0
  | None => PyInt 0
  end.

Definition two_reads (w : World) : World :=
  {| clock := clock w; reads := S (S (reads w)) |}.

From Stdlib Require Import Sorted Permutation.

(** ** The rest of the application *)

(** *** The machine: optional modules and files *)

(** [str(e)] is left to the machine, with the files and the two document
    readers.  [PyPDF2] stands for [PdfReader(open(path, 'rb')).pages]: the
    pages of the file, each with the outcome of its [extract_text()];
    [docx] for [Document(path).paragraphs], the text of each paragraph;
    [read_text] for [open(path, 'r', encoding='utf-8',
    errors='ignore').read()]. *)
Record Machine := {
  interpreter : Runtime;
  PyPDF2 : option (str -> outcome (list (outcome str)));
  docx : option (str -> outcome (list str));
  read_text : str -> outcome str;
  str_exn : exn -> str
}.

(** [import PyPDF2], [import docx] (also [from docx import Document]) *)
Definition import_PyPDF2 (m : Machine)
    : M (str -> outcome (list (outcome str))) :=
  match PyPDF2 m with
  | Some PdfReader => ret PdfReader
  | None => raise ImportError
  end.

Definition import_docx (m : Machine) : M (str -> outcome (list str)) :=
  match docx m with
  | Some Document => ret Document
  | None => raise ImportError
  end.

(** A [dict] with string keys, in insertion order. *)
Definition dict (V : Type) := list (str * V).

(** [d[k] = v] *)
Fixpoint setitem {V} (k : str) (v : V) (d : dict V) : dict V :=
  match d with
  | [] => [(k, v)]
  | (k', v') :: d' =>
      if PyStr.eqb k' k then (k, v) :: d' else (k', v') :: setitem k v d'
  end.

(** [d.get(k)] *)
Fixpoint getitem {V} (k : str) (d : dict V) : option V :=
  match d with
  | [] => None
  | (k', v) :: d' => if PyStr.eqb k' k then Some v else getitem k d'
  end.

(** Whether an optional module is there. *)
Definition installed {A} (module : option A) : bool :=
  match module with Some _ => true | None => false end.

(** [all(d.values())] *)
Definition all_values (d : dict bool) : bool := forallb snd d.

(** streamlit.py, lines 58-79 *)
Definition check_libraries (m : Machine) : M (dict bool) :=
  let available := [] in
  available <-
    try_except
      (_ <- import_PyPDF2 m ;; ret (setitem (py "pdf") true available))
      (fun _ => ret (setitem (py "pdf") false available)) ;;
  available <-
    try_except
      (_ <- import_docx m ;; ret (setitem (py "docx") true available))
      (fun _ => ret (setitem (py "docx") false available)) ;;
  available <-
    try_except
      (_ <- import_textstat (interpreter m) ;;
       ret (setitem (py "textstat") true available))
      (fun _ => ret (setitem (py "textstat") false available)) ;;
  ret available.

(** The loop over the pages: [text += page.extract_text() + "\n"]. *)
Fixpoint pages_text (pages : list (outcome str)) (text : str) : outcome str :=
  match pages with
  | [] => Returned text
  | Returned page :: pages' => pages_text pages' (text ++ page ++ [0x0A%N])
  | Raised e :: _ => Raised e
  end.

(** The loop over the paragraphs: [text += paragraph.text + "\n"]. *)
Definition paragraphs_text (paragraphs : list str) (text : str) : str :=
  fold_left (fun text paragraph => text ++ paragraph ++ [0x0A%N])
            paragraphs text.

(** streamlit.py, lines 81-106 *)
Definition extract_text_from_file (m : Machine) (file_path file_type : str)
    : M str :=
  try_except
    (if PyStr.eqb file_type (py "pdf") then
       PdfReader <- import_PyPDF2 m ;;
       pages <- call (PdfReader file_path) ;;
       text <- call (pages_text pages []) ;;
       ret (strip text)
     else if PyStr.eqb file_type (py "docx") then
       Document <- import_docx m ;;
       paragraphs <- call (Document file_path) ;;
       ret (strip (paragraphs_text paragraphs []))
     else
       call (read_text m file_path))
    (fun e => ret (py "Error extracting text: " ++ str_exn m e)).

(** *** How [main] shows the record *)

(** [s.split(sep, 1)] for a separator of one character. *)
Fixpoint split_once_from (sep : char) (w : str) (s : str) : list str :=
  match s with
  | [] => [rev w]
  | c :: s' =>
      if char_eqb c sep then [rev w; s']
      else split_once_from sep (c :: w) s'
  end.

Definition split_once (sep : char) (s : str) : list str :=
  split_once_from sep [] s.

(** The "Type" metric, [results['doc_type'].split(' ', 1)[1]] (line 268);
    [None] is the [IndexError] of a list without a second element. *)
Definition type_metric (r : AnalysisRecord) : option str :=
  nth_error (split_once 0x20%N (doc_type r)) 1.

(** The truth value of a value: [None], [0] and [0.0] are false. *)
Definition value_truthy (v : value) : bool :=
  match v with
  | PyNone => false
  | PyInt z => negb (Z.eqb z 0)
  | PyFloat x => negb (PrimFloat.eqb x 0%float)
  end.

(** The "Readability" metric (line 270),
    [f"{readability:.0f}" if readability else "N/A"]; the formatting of a
    number is [format_0f]. *)
Definition readability_metric (format_0f : value -> str)
    (r : AnalysisRecord) : str :=
  if value_truthy (readability r) then format_0f (readability r)
  else py "N/A".

(** An entity line of the text report (lines 357-359),
    [', '.join(found) if found else 'None']. *)
Definition entity_line (found : list str) : str :=
  match found with
  | [] => py "None"
  | _ :: _ => join (py ", ") found
  end.

(** A document reaches the analyzer when [text_content] is not empty
    (line 253). *)
Definition analyzed (text_content : str) : bool := truthy text_content.

(** *** Words for the statements *)

(** The words [Counter] counts (line 141). *)
Definition clean_words (text : str) : list str :=
  map (fun w => strip_chars punctuation (lower w))
      (filter (fun w => (3 <? length w) && negb (mem (lower w) stop_words))
              (if truthy text then split_ws text else [])).

(** The different words of [ws] in the order in which they first appear,
    those of [seen] left out. *)
Fixpoint first_seen (seen ws : list str) : list str :=
  match ws with
  | [] => []
  | w :: ws' =>
      if mem w seen then first_seen seen ws'
      else w :: first_seen (w :: seen) ws'
  end.

(** How often [w] stands in [ws]. *)
Definition occurrences (ws : list str) (w : str) : nat :=
  count_occ str_eq_dec ws w.

(** The counter [c] has counted the words [ws]: its keys are the words of
    [ws], each once, with the number of times it stands in [ws]. *)
Definition counts (c : Collections.counter) (ws : list str) : Prop :=
  NoDup (map fst c) /\
  (forall k, In k (map fst c) <-> In k ws) /\
  (forall k n, In (k, n) c -> n = occurrences ws k).

(** The lower cases that an entry of the lower-case table gives. *)
Definition lower_targets (entry : N * N * N * N) : list N :=
  let '(lo, hi, step, to) := entry in
  map (fun k => (to + step * N.of_nat k)%N)
      (seq 0 (S (N.to_nat ((hi - lo) / step)))).

(** The characters a match of [r] can hold. *)
Fixpoint alphabet (r : Re.regex) (c : char) : bool :=
  match r with
  | Re.Empty | Re.Boundary => false
  | Re.Class cls | Re.Repeat cls _ _ => cls c
  | Re.Maybe r1 => alphabet r1 c
  | Re.Seq r1 r2 | Re.Or r1 r2 => alphabet r1 c || alphabet r2 c
  end.

(** The character before a position once [m] has been read from a position
    after [pv]. *)
Definition last_of (pv : option char) (m : str) : option char :=
  fold_left (fun _ c => Some c) m pv.

(** The position reached from [p] by reading [m], with [s'] still ahead. *)
Definition after (p : Re.pos) (m s' : str) : Re.pos :=
  {| Re.prev := last_of (Re.prev p) m;
     Re.taken := rev m ++ Re.taken p;
     Re.rest := s' |}.

(** Some [%] of [s] stands right before a letter, a digit or an
    underscore. *)
Fixpoint percent_before_word (s : str) : bool :=
  match s with
  | c :: (d :: _) as s' =>
      (char_eqb c 0x25%N && Re.is_word d) || percent_before_word s'
  | _ => false
  end.

(** A machine with nothing installed and no file. *)
Definition bare_machine : Machine :=
  {| interpreter := bare_runtime;
     PyPDF2 := None;
     docx := None;
     read_text := fun _ => Raised (Exception 2);
     str_exn := fun e =>
       match e with
       | ImportError => py "No module named 'PyPDF2'"
       | Exception _ => py "[Errno 2] No such file or directory"
       end |}.

(** A machine with both readers and [textstat]; every PDF has the
    pages [pages], every Word document the paragraphs [paragraphs]. *)
Definition full_machine (pages paragraphs : list str) : Machine :=
  {| interpreter := scoring_runtime 1.5%float;
     PyPDF2 := Some (fun _ => Returned (map Returned pages));
     docx := Some (fun _ => Returned paragraphs);
     read_text := fun _ => Returned (py "plain text");
     str_exn := fun _ => py "error" |}.

Ltac run_analyzer rt text :=
  unfold analyze_document, bind, try_except, import_textstat, time_time,
    ret, raise, call, score_of;
  destruct (textstat rt) as [flesch|]; cbn beta iota;
  [ destruct (truthy text); cbn beta iota;
    [ destruct (flesch text); cbn beta iota | ] | ];
  eexists; (split; [reflexivity|]); cbn beta iota delta
    [filename word_count char_count doc_type readability topics summary
     dates percentages emails processing_time];
  repeat split.

Lemma analyze_document_fields (rt : Runtime) (text name : str) (w : World) :
  exists r,
    analyze_document rt text name w = (Returned r, two_reads w) /\
    filename r = name /\
    word_count r = length (if truthy text then split_ws text else []) /\
    char_count r = length text /\
    doc_type r =
      (if any_in academic_words (lower text) then academic_paper
       else if any_in business_words (lower text) then business_document
       else if any_in literary_words (lower text) then literary_work
       else if length (if truthy text then split_ws text else []) <? 100
            then short_document
       else general_document) /\
    readability r = score_of rt text /\
    topics r =
      map fst (Collections.most_common 8 (Collections.Counter
        (map (fun w => strip_chars punctuation (lower w))
           (filter (fun w => (3 <? length w)
                             && negb (mem (lower w) stop_words))
              (if truthy text then split_ws text else []))))) /\
    summary r =
      (let sentences :=
         map strip (filter (fun s => truthy (strip s))
                      (split_on 0x2E%N text)) in
       if 2 <=? length sentences
       then join (py ". ") (firstn 2 sentences) ++ py "."
       else firstn 200 text ++ py "...") /\
    dates r = firstn 5 (list_set rt (Re.findall Re.date_pattern text)) /\
    percentages r =
      firstn 5 (list_set rt (Re.findall Re.percentage_pattern text)) /\
    emails r = firstn 3 (list_set rt (Re.findall Re.email_pattern text)) /\
    processing_time r =
      PrimFloat.sub (clock w (S (reads w))) (clock w (reads w)).
Proof.
  run_analyzer rt text.
Qed.

(** ** Lists and strings *)

Section ListFacts.

Context {A : Type}.

Lemma NoDup_firstn (n : nat) (l : list A) : NoDup l -> NoDup (firstn n l).
Proof.
  intros H. rewrite <- (firstn_skipn n l) in H.
  exact (NoDup_app_remove_r _ _ H).
Qed.

Lemma length_firstn_le (n : nat) (l : list A) : length (firstn n l) <= n.
Proof.
  rewrite length_firstn. apply Nat.le_min_l.
Qed.

Lemma In_firstn (n : nat) (l : list A) (x : A) :
  In x (firstn n l) -> In x l.
Proof.
  intros H. rewrite <- (firstn_skipn n l). apply in_or_app. left. exact H.
Qed.

End ListFacts.

Lemma eqb_refl (s : str) : PyStr.eqb s s = true.
Proof.
  induction s as [|c s IH]; simpl; [reflexivity|].
  unfold char_eqb. rewrite N.eqb_refl. exact IH.
Qed.

Lemma eqb_eq (a b : str) : PyStr.eqb a b = true <-> a = b.
Proof.
  split.
  - revert b. induction a as [|x a IH]; intros [|y b] H; simpl in H;
      try discriminate; [reflexivity|].
    apply andb_true_iff in H. destruct H as [Hx Hab].
    apply N.eqb_eq in Hx. subst y. f_equal. apply IH. exact Hab.
  - intros ->. apply eqb_refl.
Qed.

(** Trimming the kept segments is keeping the non-empty trimmed ones. *)
Lemma strip_kept_segments (segments : list str) :
  map strip (filter (fun s => truthy (strip s)) segments)
  = filter truthy (map strip segments).
Proof.
  induction segments as [|s l IH]; simpl; [reflexivity|].
  destruct (truthy (strip s)); simpl; rewrite IH; reflexivity.
Qed.

Lemma startswith_app (m back : str) : startswith m (m ++ back) = true.
Proof.
  induction m as [|c m IH]; simpl; [reflexivity|].
  unfold char_eqb. rewrite N.eqb_refl. exact IH.
Qed.

Lemma contains_app (front m back : str) :
  contains m (front ++ m ++ back) = true.
Proof.
  induction front as [|c front IH].
  - pose proof (startswith_app m back) as H. cbn [app].
    destruct (m ++ back); cbn [contains]; rewrite H; reflexivity.
  - cbn [app contains]. rewrite IH. apply orb_true_r.
Qed.

Lemma startswith_split (p s : str) :
  startswith p s = true -> exists back, s = p ++ back.
Proof.
  revert s. induction p as [|x p IH]; intros s H.
  - exists s. reflexivity.
  - destruct s as [|y s]; [discriminate H|]. cbn [startswith] in H.
    apply andb_true_iff in H. destruct H as [Hx Hp].
    apply N.eqb_eq in Hx. subst y.
    destruct (IH s Hp) as (back & ->). exists back. reflexivity.
Qed.

Lemma contains_split (p s : str) :
  contains p s = true -> exists front back, s = front ++ p ++ back.
Proof.
  induction s as [|c s IH]; cbn [contains]; intros H.
  - rewrite orb_false_r in H. destruct (startswith_split p [] H) as (back & E).
    exists [], back. exact E.
  - apply orb_true_iff in H. destruct H as [H|H].
    + destruct (startswith_split p (c :: s) H) as (back & E).
      exists [], back. exact E.
    + destruct (IH H) as (front & back & ->).
      exists (c :: front), back. reflexivity.
Qed.

(** A character that is its own lower case is lower-cased to itself,
    whatever stands around it. *)
Lemma is_lowered_full (c : char) :
  is_lowered c = true -> char_eqb c 0x3A3%N = false /\ lower_full c = [c].
Proof.
  unfold is_lowered, lower_full, char_eqb. intros H.
  destruct (N.eqb_spec c 0x3A3%N) as [->|_]; [vm_compute in H; discriminate H|].
  destruct (N.eqb_spec c 0x130%N) as [->|_]; [vm_compute in H; discriminate H|].
  apply N.eqb_eq in H. rewrite H. split; reflexivity.
Qed.

Lemma lower_from_lowered (p : str) :
  Forall (fun c => is_lowered c = true) p ->
  forall before rest,
    lower_from before (p ++ rest) = p ++ lower_from (rev p ++ before) rest.
Proof.
  induction 1 as [|c p Hc _ IH]; intros before rest; [reflexivity|].
  destruct (is_lowered_full c Hc) as [Hs Hf].
  cbn [app lower_from rev]. rewrite Hs, Hf, IH, <- app_assoc. reflexivity.
Qed.

Lemma lower_from_app (a : str) :
  forall before rest,
    exists a',
      lower_from before (a ++ rest) = a' ++ lower_from (rev a ++ before) rest.
Proof.
  induction a as [|c a IH]; intros before rest.
  - exists []. reflexivity.
  - destruct (IH (c :: before) rest) as (a' & E).
    cbn [app lower_from rev]. rewrite E, <- !app_assoc. eexists.
    rewrite app_assoc. reflexivity.
Qed.

(** A string of lower-case characters that stands in a text stands in its
    lower case. *)
Lemma contains_lower (p s : str) :
  Forall (fun c => is_lowered c = true) p ->
  contains p s = true -> contains p (lower s) = true.
Proof.
  intros Hp H. destruct (contains_split p s H) as (front & back & ->).
  unfold lower. destruct (lower_from_app front [] (p ++ back)) as (a' & ->).
  rewrite (lower_from_lowered Hp). apply contains_app.
Qed.

(** ** Sets *)

Lemma list_set_nil (rt : Runtime) : list_set rt [] = [].
Proof.
  unfold list_set. destruct (listing (set_listing rt) []) as [|x l] eqn:E.
  - reflexivity.
  - exfalso. apply (proj1 (listing_In (set_listing rt) [] x)).
    rewrite E. left. reflexivity.
Qed.

Lemma list_set_one (rt : Runtime) (x : str) : list_set rt [x] = [x].
Proof.
  unfold list_set.
  pose proof (listing_NoDup (set_listing rt) [x]) as Hnd.
  pose proof (listing_In (set_listing rt) [x]) as Hin.
  destruct (listing (set_listing rt) [x]) as [|a [|b l]].
  - exfalso. apply (proj2 (Hin x)). left. reflexivity.
  - destruct (proj1 (Hin a)) as [<-|[]]; [left; reflexivity|reflexivity].
  - exfalso.
    assert (Ha : a = x).
    { destruct (proj1 (Hin a)) as [<-|[]]; [left; reflexivity|reflexivity]. }
    assert (Hb : b = x).
    { destruct (proj1 (Hin b)) as [<-|[]];
        [right; left; reflexivity|reflexivity]. }
    subst a b. inversion Hnd as [|? ? Hnot _]. apply Hnot. left. reflexivity.
Qed.

(** ** The scan of [findall] does not run out of fuel *)

Lemma findall_from_fuel (r : Re.regex) (n m : nat) :
  forall (pv : option char) (s : str),
    length s < n -> length s < m ->
    Re.findall_from n r pv s = Re.findall_from m r pv s.
Proof.
  revert m. induction n as [|n IH]; intros m pv s Hn Hm; [lia|].
  destruct m as [|m]; [lia|]. simpl.
  destruct (Re.match_here r _ Some) as [q|].
  - destruct (length (Re.rest q) <? length s) eqn:E.
    + apply Nat.ltb_lt in E. f_equal. apply IH; lia.
    + destruct s as [|c s]; [reflexivity|]. f_equal.
      apply IH; simpl in *; lia.
  - destruct s as [|c s]; [reflexivity|]. apply IH; simpl in *; lia.
Qed.

(** ** Every match takes at least [min_take] characters *)

Lemma repeat_here_takes (cls : char -> bool) (k : Re.pos -> option Re.pos)
    (q : Re.pos) :
  forall (s : str) (lo : nat) (hi : option nat) (pv : option char) (tk : str),
    Re.repeat_here cls lo hi pv tk s k = Some q ->
    exists p', k p' = Some q /\ length (Re.rest p') + lo <= length s.
Proof.
  induction s as [|c s IH]; intros lo hi pv tk H; cbn [Re.repeat_here] in H.
  - destruct lo; [|discriminate]. eexists. split; [exact H|]. simpl. lia.
  - assert (Hstop :
      match lo with
      | 0 => k {| Re.prev := pv; Re.taken := tk; Re.rest := c :: s |}
      | S _ => None
      end = Some q ->
      exists p', k p' = Some q /\ length (Re.rest p') + lo <= length (c :: s)).
    { intros E. destruct lo; [|discriminate].
      eexists. split; [exact E|]. simpl. lia. }
    destruct (cls c && Re.more hi); [|exact (Hstop H)].
    destruct (Re.repeat_here cls (Nat.pred lo) (Re.less hi) (Some c)
                (c :: tk) s k) as [q'|] eqn:E; [|exact (Hstop H)].
    injection H as <-. destruct (IH _ _ _ _ E) as (p' & Hk & Hlen).
    exists p'. split; [exact Hk|]. simpl. lia.
Qed.

Lemma match_here_takes (r : Re.regex) :
  forall (p : Re.pos) (k : Re.pos -> option Re.pos) (q : Re.pos),
    Re.match_here r p k = Some q ->
    exists p',
      k p' = Some q /\
      length (Re.rest p') + Re.min_take r <= length (Re.rest p).
Proof.
  induction r as [| |cls|cls lo hi|r IH|r1 IH1 r2 IH2|r1 IH1 r2 IH2];
    intros p k q H; cbn [Re.match_here Re.min_take] in *.
  - exists p. split; [exact H|lia].
  - destruct (Re.at_boundary p); [|discriminate].
    exists p. split; [exact H|lia].
  - destruct (Re.rest p) as [|c s]; [discriminate|].
    destruct (cls c); [|discriminate].
    eexists. split; [exact H|]. simpl. lia.
  - exact (repeat_here_takes _ _ _ _ _ _ _ H).
  - destruct (Re.match_here r p k) as [q'|] eqn:E.
    + injection H as <-. destruct (IH _ _ _ E) as (p' & Hk & Hlen).
      exists p'. split; [exact Hk|lia].
    + exists p. split; [exact H|lia].
  - destruct (IH1 _ _ _ H) as (p1 & H2 & Hlen1).
    destruct (IH2 _ _ _ H2) as (p2 & Hk & Hlen2).
    exists p2. split; [exact Hk|lia].
  - destruct (Re.match_here r1 p k) as [q'|] eqn:E.
    + injection H as <-. destruct (IH1 _ _ _ E) as (p' & Hk & Hlen).
      exists p'. split; [exact Hk|lia].
    + destruct (IH2 _ _ _ H) as (p' & Hk & Hlen).
      exists p'. split; [exact Hk|lia].
Qed.

(** The three entity patterns never match the empty string, so every step
    of their scans lists a match of two characters or more, or moves on. *)
Lemma entity_matches_take_characters (r : Re.regex) (p q : Re.pos) :
  In r [Re.date_pattern; Re.percentage_pattern; Re.email_pattern] ->
  Re.match_here r p Some = Some q ->
  length (Re.rest q) + 2 <= length (Re.rest p).
Proof.
  intros Hr H. destruct (match_here_takes r p Some H) as (p' & Hk & Hlen).
  injection Hk as ->.
  assert (2 <= Re.min_take r).
  { destruct Hr as [<-|[<-|[<-|[]]]]; simpl; lia. }
  lia.
Qed.

(** ** Counters *)

Lemma count_one_keys (w k : str) (c : Collections.counter) :
  In k (map fst (Collections.count_one w c)) -> k = w \/ In k (map fst c).
Proof.
  induction c as [|[k' n] c IH]; simpl.
  - intros [<-|[]]. left. reflexivity.
  - destruct (PyStr.eqb k' w); simpl; intros [H|H]; auto.
    destruct (IH H); auto.
Qed.

Lemma Counter_keys (ws : list str) (k : str) :
  In k (map fst (Collections.Counter ws)) -> In k ws.
Proof.
  unfold Collections.Counter.
  assert (G : forall c, In k (map fst (fold_left
                (fun c w => Collections.count_one w c) ws c)) ->
              In k ws \/ In k (map fst c)).
  { induction ws as [|w ws IH]; intros c H; simpl in *; [right; exact H|].
    destruct (IH _ H) as [H'|H']; [auto|].
    destruct (count_one_keys _ _ _ H'); auto. }
  intros H. destruct (G [] H) as [H'|[]]. exact H'.
Qed.

Lemma insert_desc_In (x y : str * nat) (l : Collections.counter) :
  In y (Collections.insert_desc x l) -> y = x \/ In y l.
Proof.
  induction l as [|z l IH]; simpl.
  - intros [<-|[]]. left. reflexivity.
  - destruct (snd x <? snd z); simpl; intros [H|H]; auto.
    destruct (IH H); auto.
Qed.

Lemma most_common_In (n : nat) (c : Collections.counter) (y : str * nat) :
  In y (Collections.most_common n c) -> In y c.
Proof.
  unfold Collections.most_common. intros H. apply In_firstn in H.
  induction c as [|x c IH]; simpl in H; [exact H|].
  destruct (insert_desc_In _ _ _ H) as [->|H']; [left; reflexivity|].
  right. exact (IH H').
Qed.

(** ** Readability *)

(** C1, as the code has it: when the text is empty or [textstat] cannot be
    imported, the [readability] entry is the integer 0, the value the
    variable is given before the try block; no absent value is stored. *)
Theorem readability_zero_without_score
    (rt : Runtime) (text name : str) (w : World) :
  text = [] \/ textstat rt = None ->
  exists r,
    returned (analyze_document rt text name w) = Some r /\
    readability r = PyInt 0.
Proof.
  intros H.
  destruct (analyze_document_fields rt text name w)
    as (r & Hrun & _ & _ & _ & _ & Hscore & _).
  exists r. rewrite Hrun. split; [reflexivity|].
  rewrite Hscore. unfold score_of.
  destruct H as [-> | ->]; [destruct (textstat rt)|]; reflexivity.
Qed.

Lemma readability_zero_without_score_witness :
  (@nil char = [] \/ textstat (scoring_runtime 1.5%float) = None) /\
  exists r,
    returned (analyze_document (scoring_runtime 1.5%float) [] (py "empty.txt")
                epoch) = Some r /\
    readability r = PyInt 0.
Proof.
  split; [left; reflexivity|].
  apply (@readability_zero_without_score
           (scoring_runtime 1.5%float) [] (py "empty.txt") epoch).
  left. reflexivity.
Defined.

(** C1, as the claim states it, fails: for the empty text with [textstat]
    installed, and for a text without [textstat], the entry is the number
    zero and not the absent value. *)
Lemma readability_zero_is_not_absent :
  (exists r,
     returned (analyze_document (scoring_runtime 1.5%float) [] (py "empty.txt")
                 epoch) = Some r /\
     readability r = PyInt 0 /\ readability r <> PyNone) /\
  (exists r,
     returned (analyze_document bare_runtime (py "Hello world.")
                 (py "hello.txt") epoch) = Some r /\
     readability r = PyInt 0 /\ readability r <> PyNone).
Proof.
  split; eexists; (split; [reflexivity|]); split;
    [reflexivity|discriminate|reflexivity|discriminate].
Qed.

(** ** Topics *)

Lemma topics_at_most_8 (rt : Runtime) (text name : str) (w : World) :
  exists r,
    returned (analyze_document rt text name w) = Some r /\
    length (topics r) <= 8.
Proof.
  destruct (analyze_document_fields rt text name w)
    as (r & Hrun & _ & _ & _ & _ & _ & Htopics & _).
  exists r. rewrite Hrun. split; [reflexivity|].
  rewrite Htopics, length_map. unfold Collections.most_common.
  apply length_firstn_le.
Qed.

(** What the filter does keep out: every topic is the lower-cased, stripped
    form of a token that, as it stands in the text, is longer than three
    characters and is not a stop word in lower case. *)
Lemma topics_come_from_long_tokens
    (rt : Runtime) (text name : str) (w : World) :
  exists r,
    returned (analyze_document rt text name w) = Some r /\
    forall topic, In topic (topics r) ->
      exists token,
        In token (split_ws text) /\
        topic = strip_chars punctuation (lower token) /\
        3 < length token /\
        mem (lower token) stop_words = false.
Proof.
  destruct (analyze_document_fields rt text name w)
    as (r & Hrun & _ & _ & _ & _ & _ & Htopics & _).
  exists r. rewrite Hrun. split; [reflexivity|].
  intros topic H. rewrite Htopics in H.
  apply in_map_iff in H. destruct H as ([k n] & <- & H).
  apply most_common_In in H.
  apply (in_map fst) in H. apply Counter_keys in H.
  apply in_map_iff in H. destruct H as (token & <- & H).
  apply filter_In in H. destruct H as [Hin Htest].
  apply andb_true_iff in Htest. destruct Htest as [Hlen Hstop].
  exists token. repeat split.
  - destruct (truthy text); [exact Hin|destruct Hin].
  - apply Nat.ltb_lt. exact Hlen.
  - apply negb_true_iff. exact Hstop.
Qed.

(** C2 fails on the code: the length test and the stop-word test read the
    token before the punctuation is stripped, so "this." and "(it)." pass
    both and leave the stop word "this" and the two-letter "it" among the
    topics. *)
Theorem topics_keep_stop_word_and_short_token
    (rt : Runtime) (name : str) (w : World) :
  exists r,
    returned (analyze_document rt (py "We found this. See (it).") name w)
      = Some r /\
    topics r = [py "found"; py "this"; py "it"] /\
    mem (py "this") stop_words = true /\
    length (py "it") <= 3.
Proof.
  destruct (analyze_document_fields rt (py "We found this. See (it).") name w)
    as (r & Hrun & _ & _ & _ & _ & _ & Htopics & _).
  exists r. rewrite Hrun. split; [reflexivity|].
  rewrite Htopics. split; [vm_compute; reflexivity|].
  split; [vm_compute; reflexivity|]. simpl. lia.
Qed.

(** ** Entities *)

Lemma scenario_matches :
  Re.findall Re.email_pattern scenario = [py "john@example.com"] /\
  Re.findall Re.date_pattern scenario = [py "12/05/2023"] /\
  Re.findall Re.percentage_pattern scenario = [].
Proof.
  repeat split; vm_compute; reflexivity.
Qed.

(** C3 holds for the e-mail address and the date and fails for the
    percentages: after [%] the pattern asks for a word boundary, and there
    is none between [%] and the full stop or the space that follows it in
    the scenario, so no percentage is found. *)
Theorem scenario_entities (rt : Runtime) (name : str) (w : World) :
  exists r,
    returned (analyze_document rt scenario name w) = Some r /\
    emails r = [py "john@example.com"] /\
    dates r = [py "12/05/2023"] /\
    percentages r = [].
Proof.
  destruct (analyze_document_fields rt scenario name w)
    as (r & Hrun & _ & _ & _ & _ & _ & _ & _ & Hd & Hp & He & _).
  exists r. rewrite Hrun. split; [reflexivity|].
  destruct scenario_matches as (Em & Dm & Pm).
  rewrite He, Hd, Hp, Em, Dm, Pm, !list_set_one, list_set_nil.
  repeat split.
Qed.

(** The application's own sample has three percentages and the analyzer
    lists none of them. *)
Lemma business_report_percentages (rt : Runtime) (name : str) (w : World) :
  exists r,
    returned (analyze_document rt business_report name w) = Some r /\
    doc_type r = business_document /\
    percentages r = [].
Proof.
  destruct (analyze_document_fields rt business_report name w)
    as (r & Hrun & _ & _ & _ & Ht & _ & _ & _ & _ & Hp & _).
  exists r. rewrite Hrun. split; [reflexivity|].
  rewrite Ht, Hp. split; [vm_compute; reflexivity|].
  replace (Re.findall Re.percentage_pattern business_report) with (@nil str)
    by (vm_compute; reflexivity).
  rewrite list_set_nil. reflexivity.
Qed.

(** The percentage pattern does match where a letter, a digit or an
    underscore follows the sign. *)
Lemma percentage_needs_word_after :
  Re.findall Re.percentage_pattern (py "up 18%x or 18% x") = [py "18%"].
Proof.
  vm_compute. reflexivity.
Qed.

(** C8: at most 5 dates, 5 percentages and 3 e-mail addresses, and no value
    twice in any of the three lists. *)
Theorem entity_caps_and_no_duplicates
    (rt : Runtime) (text name : str) (w : World) :
  exists r,
    returned (analyze_document rt text name w) = Some r /\
    length (dates r) <= 5 /\ length (percentages r) <= 5 /\
    length (emails r) <= 3 /\
    NoDup (dates r) /\ NoDup (percentages r) /\ NoDup (emails r).
Proof.
  destruct (analyze_document_fields rt text name w)
    as (r & Hrun & _ & _ & _ & _ & _ & _ & _ & Hd & Hp & He & _).
  exists r. rewrite Hrun. split; [reflexivity|].
  rewrite Hd, Hp, He. unfold list_set.
  repeat split; try apply length_firstn_le;
    apply NoDup_firstn, listing_NoDup.
Qed.

Example six_years_five_dates :
  exists r,
    returned (analyze_document bare_runtime
                (py "2001 2002 2003 2004 2005 2006 2001") (py "years.txt")
                epoch) = Some r /\
    dates r = [py "2002"; py "2003"; py "2004"; py "2005"; py "2006"].
Proof.
  eexists. split; [reflexivity|]. vm_compute. reflexivity.
Qed.

(** ** Document type *)

Lemma labels_name_the_classes : map (skipn 2) labels = class_names.
Proof.
  reflexivity.
Qed.

(** C4, as the code has it: [doc_type] is one of the five labels, each the
    icon of its class, a space and the name of the class; what follows the
    icon and the space is one of the five names. *)
Theorem doc_type_is_a_label (rt : Runtime) (text name : str) (w : World) :
  exists r,
    returned (analyze_document rt text name w) = Some r /\
    In (doc_type r) labels /\
    In (skipn 2 (doc_type r)) class_names.
Proof.
  destruct (analyze_document_fields rt text name w)
    as (r & Hrun & _ & _ & _ & Htype & _).
  exists r. rewrite Hrun. split; [reflexivity|].
  assert (H : In (doc_type r) labels).
  { rewrite Htype. unfold labels.
    destruct (any_in academic_words _); [simpl; tauto|].
    destruct (any_in business_words _); [simpl; tauto|].
    destruct (any_in literary_words _); [simpl; tauto|].
    destruct (_ <? 100); simpl; tauto. }
  split; [exact H|].
  rewrite <- labels_name_the_classes. apply in_map. exact H.
Qed.

(** C4, as the claim states it, fails: the label of the empty text starts
    with the icon U+1F4DD and is none of the five bare names. *)
Lemma doc_type_is_not_a_bare_name :
  exists r,
    returned (analyze_document bare_runtime [] (py "empty.txt") epoch)
      = Some r /\
    doc_type r = 0x1F4DD%N :: py " Short Document" /\
    ~ In (doc_type r) class_names.
Proof.
  eexists. split; [reflexivity|]. split; [reflexivity|].
  cbn. intros H.
  repeat (destruct H as [H|H]; [discriminate H|]). exact H.
Qed.

(** C7: the rules are tried in the order academic, business, literary,
    fewer than 100 words, default, each against the lower-cased text, and
    the first that applies gives the label; so a text that contains
    "abstract" and "executive", in any letter case, is an academic paper. *)
Theorem classification_first_match_wins
    (rt : Runtime) (text name : str) (w : World) :
  exists r,
    returned (analyze_document rt text name w) = Some r /\
    let t := lower text in
    (any_in academic_words t = true -> doc_type r = academic_paper) /\
    (any_in academic_words t = false -> any_in business_words t = true ->
     doc_type r = business_document) /\
    (any_in academic_words t = false -> any_in business_words t = false ->
     any_in literary_words t = true -> doc_type r = literary_work) /\
    (any_in academic_words t = false -> any_in business_words t = false ->
     any_in literary_words t = false -> word_count r < 100 ->
     doc_type r = short_document) /\
    (any_in academic_words t = false -> any_in business_words t = false ->
     any_in literary_words t = false -> 100 <= word_count r ->
     doc_type r = general_document) /\
    (contains (py "abstract") t = true -> contains (py "executive") t = true ->
     doc_type r = academic_paper) /\
    (contains (py "abstract") text = true ->
     contains (py "executive") text = true ->
     doc_type r = academic_paper).
Proof.
  destruct (analyze_document_fields rt text name w)
    as (r & Hrun & _ & Hwords & _ & Htype & _).
  exists r. rewrite Hrun. split; [reflexivity|].
  cbv zeta. rewrite Htype, Hwords.
  assert (Habs : contains (py "abstract") (lower text) = true ->
                 any_in academic_words (lower text) = true).
  { intros H. unfold any_in, academic_words. cbn [existsb].
    rewrite H. reflexivity. }
  repeat split.
  - intros ->. reflexivity.
  - intros -> ->. reflexivity.
  - intros -> -> ->. reflexivity.
  - intros -> -> -> H. apply Nat.ltb_lt in H. rewrite H. reflexivity.
  - intros -> -> -> H. apply Nat.ltb_ge in H. rewrite H. reflexivity.
  - intros H _. rewrite (Habs H). reflexivity.
  - intros H _. apply contains_lower in H; [|repeat constructor].
    rewrite (Habs H). reflexivity.
Qed.

(** ** Summary *)

(** C6: the summary is the one the specification describes: the first two
    non-empty trimmed segments between full stops, joined by ". " and closed
    by ".", when there are two, and else the first 200 characters of the
    text followed by "...". *)
Theorem summary_is_summary_spec
    (rt : Runtime) (text name : str) (w : World) :
  exists r,
    returned (analyze_document rt text name w) = Some r /\
    summary r = summary_spec text.
Proof.
  destruct (analyze_document_fields rt text name w)
    as (r & Hrun & _ & _ & _ & _ & _ & _ & Hsum & _).
  exists r. rewrite Hrun. split; [reflexivity|].
  rewrite Hsum. cbv zeta. unfold summary_spec.
  rewrite strip_kept_segments.
  destruct (filter truthy (map strip (split_on 46%N text)))
    as [|first [|second more]]; try reflexivity.
  cbn [length Nat.leb firstn join]. rewrite <- !app_assoc. reflexivity.
Qed.

(** C10: the summary of the empty text is "...". *)
Theorem summary_of_empty_text (rt : Runtime) (name : str) (w : World) :
  exists r,
    returned (analyze_document rt [] name w) = Some r /\
    summary r = py "...".
Proof.
  destruct (analyze_document_fields rt [] name w)
    as (r & Hrun & _ & _ & _ & _ & _ & _ & Hsum & _).
  exists r. rewrite Hrun. split; [reflexivity|].
  rewrite Hsum. reflexivity.
Qed.

(** ** Runs *)

(** C9: for every interpreter, clock, text and file name the analyzer
    returns a record and raises nothing, whether [textstat] is missing or
    its scorer raises; for the empty text the counts are zero and the lists
    are empty. *)
Theorem analyze_document_returns
    (rt : Runtime) (text name : str) (w : World) :
  exists r w',
    analyze_document rt text name w = (Returned r, w') /\
    (text = [] ->
     word_count r = 0 /\ char_count r = 0 /\ topics r = [] /\
     dates r = [] /\ percentages r = [] /\ emails r = []).
Proof.
  destruct (analyze_document_fields rt text name w)
    as (r & Hrun & _ & Hw & Hc & _ & _ & Ht & _ & Hd & Hp & He & _).
  exists r, (two_reads w). split; [exact Hrun|].
  intros ->. rewrite Hw, Hc, Ht, Hd, Hp, He.
  change (Re.findall Re.date_pattern []) with (@nil str).
  change (Re.findall Re.percentage_pattern []) with (@nil str).
  change (Re.findall Re.email_pattern []) with (@nil str).
  rewrite list_set_nil. repeat split.
Qed.

(** C5, as the code has it: two runs in one interpreter on the same text and
    file name, at any two times, return records that agree in every field
    but [processing_time], the order of the entity lists included. *)
Theorem same_interpreter_same_record
    (rt : Runtime) (text name : str) (w1 w2 : World) :
  exists r1 r2,
    returned (analyze_document rt text name w1) = Some r1 /\
    returned (analyze_document rt text name w2) = Some r2 /\
    timeless r1 = timeless r2.
Proof.
  destruct (analyze_document_fields rt text name w1)
    as (r1 & Hrun1 & A1 & B1 & C1 & D1 & E1 & F1 & G1 & H1 & I1 & J1 & _).
  destruct (analyze_document_fields rt text name w2)
    as (r2 & Hrun2 & A2 & B2 & C2 & D2 & E2 & F2 & G2 & H2 & I2 & J2 & _).
  exists r1, r2. rewrite Hrun1, Hrun2. repeat split.
  unfold timeless. congruence.
Qed.

(** C5, as the claim states it, fails: the entity lists are listings of
    sets, whose order belongs to the interpreter; two interpreters that
    list the set of "1999" and "2000" from opposite ends return different
    [dates] for the same text and file name. *)
Lemma set_order_shows_in_dates :
  exists r1 r2,
    returned (analyze_document bare_runtime (py "1999 2000") (py "years.txt")
                epoch) = Some r1 /\
    returned (analyze_document reversed_runtime (py "1999 2000")
                (py "years.txt") epoch) = Some r2 /\
    dates r1 = [py "1999"; py "2000"] /\
    dates r2 = [py "2000"; py "1999"] /\
    timeless r1 <> timeless r2.
Proof.
  eexists. eexists. split; [reflexivity|]. split; [reflexivity|].
  split; [vm_compute; reflexivity|]. split; [vm_compute; reflexivity|].
  vm_compute. discriminate.
Qed.

(** ** Words and characters *)

Lemma split_ws_from_length (s w : str) :
  2 * length (split_ws_from w s)
  <= length s + (if truthy w then 2 else 1).
Proof.
  revert w. induction s as [|c s IH]; intros w; cbn [split_ws_from].
  - destruct (truthy w); simpl; lia.
  - destruct (isspace c).
    + specialize (IH []). cbn [truthy] in IH.
      destruct (truthy w); cbn [length] in *; lia.
    + specialize (IH (c :: w)). cbn [truthy length] in *.
      destruct (truthy w); lia.
Qed.

(** X1: words are separated by at least one character, so twice the word
    count is at most the character count plus one. *)
Theorem words_fit_in_characters
    (rt : Runtime) (text name : str) (w : World) :
  exists r,
    returned (analyze_document rt text name w) = Some r /\
    2 * word_count r <= char_count r + 1.
Proof.
  destruct (analyze_document_fields rt text name w)
    as (r & Hrun & _ & Hw & Hc & _).
  exists r. rewrite Hrun. split; [reflexivity|].
  rewrite Hw, Hc. destruct (truthy text).
  - pose proof (split_ws_from_length text []) as H. cbn [truthy] in H.
    exact H.
  - simpl. lia.
Qed.

(** The words that [split] finds are non-empty and free of white space. *)
Lemma split_ws_from_words (s w : str) :
  Forall (fun c => isspace c = false) w ->
  Forall (fun word => word <> [] /\ Forall (fun c => isspace c = false) word)
         (split_ws_from w s).
Proof.
  revert w. induction s as [|c s IH]; intros w Hw; cbn [split_ws_from].
  - destruct w as [|x w]; cbn [truthy]; constructor; [|constructor].
    split.
    + intros E. apply (f_equal (@length char)) in E.
      rewrite length_rev in E. discriminate E.
    + apply Forall_rev. exact Hw.
  - destruct (isspace c) eqn:E.
    + destruct w as [|x w]; cbn [truthy]; [apply IH; constructor|].
      constructor; [|apply IH; constructor]. split.
      * intros E'. apply (f_equal (@length char)) in E'.
        rewrite length_rev in E'. discriminate E'.
      * apply Forall_rev. exact Hw.
    + apply IH. constructor; assumption.
Qed.

(** The guard [if text] of line 113 changes nothing: the word count is the
    number of words that [text.split()] finds, for the empty text too. *)
Lemma word_count_counts_words
    (rt : Runtime) (text name : str) (w : World) :
  exists r,
    returned (analyze_document rt text name w) = Some r /\
    word_count r = length (split_ws text) /\
    Forall (fun word => word <> [] /\ Forall (fun c => isspace c = false) word)
           (split_ws text).
Proof.
  destruct (analyze_document_fields rt text name w)
    as (r & Hrun & _ & Hw & _).
  exists r. rewrite Hrun. split; [reflexivity|]. split.
  - rewrite Hw. destruct text; reflexivity.
  - apply split_ws_from_words. constructor.
Qed.

(** ** What a counter holds *)

Lemma occurrences_snoc (ws : list str) (w k : str) :
  occurrences (ws ++ [w]) k
  = occurrences ws k + (if str_eq_dec w k then 1 else 0).
Proof.
  unfold occurrences. rewrite count_occ_app. simpl.
  destruct (str_eq_dec w k); reflexivity.
Qed.

Lemma count_one_new (w : str) (c : Collections.counter) :
  ~ In w (map fst c) -> Collections.count_one w c = c ++ [(w, 1)].
Proof.
  induction c as [|[k n] c IH]; simpl; intros H; [reflexivity|].
  destruct (PyStr.eqb k w) eqn:E.
  - apply eqb_eq in E. tauto.
  - rewrite IH by tauto. reflexivity.
Qed.

Lemma count_one_old (w : str) (c : Collections.counter) :
  In w (map fst c) ->
  exists c1 n c2,
    c = c1 ++ (w, n) :: c2 /\
    Collections.count_one w c = c1 ++ (w, S n) :: c2.
Proof.
  induction c as [|[k n] c IH]; simpl; intros H; [destruct H|].
  destruct (PyStr.eqb k w) eqn:E.
  - apply eqb_eq in E. subst k. exists [], n, c. split; reflexivity.
  - destruct H as [H|H]; [subst k; rewrite eqb_refl in E; discriminate|].
    destruct (IH H) as (c1 & n' & c2 & -> & ->).
    exists ((k, n) :: c1), n', c2. split; reflexivity.
Qed.

Lemma counts_count_one (c : Collections.counter) (ws : list str) (w : str) :
  counts c ws -> counts (Collections.count_one w c) (ws ++ [w]).
Proof.
  intros (Hnd & Hkeys & Hn).
  destruct (in_dec str_eq_dec w (map fst c)) as [Hin|Hout].
  - destruct (count_one_old w c Hin) as (c1 & n & c2 & Ec & ->).
    assert (Ek : map fst (c1 ++ (w, S n) :: c2) = map fst c).
    { rewrite Ec, !map_app. reflexivity. }
    split; [rewrite Ek; exact Hnd|]. split.
    + intros k. rewrite Ek, Hkeys, in_app_iff. simpl.
      split; [tauto|]. intros [H|[<-|[]]]; [exact H|].
      apply Hkeys. exact Hin.
    + intros k m H. rewrite occurrences_snoc.
      apply in_app_iff in H. destruct H as [H|[H|H]].
      * assert (k <> w).
        { intros ->. rewrite Ec, map_app in Hnd. simpl in Hnd.
          apply NoDup_remove_2 in Hnd. apply Hnd, in_or_app. left.
          exact (in_map fst _ _ H). }
        destruct (str_eq_dec w k); [congruence|].
        rewrite Nat.add_0_r. apply Hn. rewrite Ec. apply in_or_app. auto.
      * injection H as <- <-.
        destruct (str_eq_dec w w); [|congruence].
        rewrite (Hn w n); [lia|]. rewrite Ec. apply in_or_app.
        right. left. reflexivity.
      * assert (k <> w).
        { intros ->. rewrite Ec, map_app in Hnd. simpl in Hnd.
          apply NoDup_remove_2 in Hnd. apply Hnd, in_or_app. right.
          exact (in_map fst _ _ H). }
        destruct (str_eq_dec w k); [congruence|].
        rewrite Nat.add_0_r. apply Hn. rewrite Ec. apply in_or_app.
        right. right. exact H.
  - rewrite (count_one_new w c Hout).
    assert (Hw : occurrences ws w = 0).
    { apply count_occ_not_In. intros H. apply Hout, Hkeys. exact H. }
    split.
    + rewrite map_app. simpl. apply NoDup_app; [exact Hnd|repeat constructor; simpl; tauto|].
      intros a Ha [<-|[]]. exact (Hout Ha).
    + split.
      * intros k. rewrite map_app, !in_app_iff, Hkeys. reflexivity.
      * intros k m H. rewrite occurrences_snoc.
        apply in_app_iff in H. destruct H as [H|[H|[]]].
        -- assert (w <> k).
           { intros ->. apply Hout. exact (in_map fst _ _ H). }
           destruct (str_eq_dec w k); [congruence|].
           rewrite Nat.add_0_r. apply Hn. exact H.
        -- injection H as <- <-.
           destruct (str_eq_dec w w); [|congruence]. lia.
Qed.

Lemma Counter_counts (ws : list str) : counts (Collections.Counter ws) ws.
Proof.
  unfold Collections.Counter.
  assert (G : forall c done, counts c done ->
            counts (fold_left (fun c w => Collections.count_one w c) ws c)
                   (done ++ ws)).
  { induction ws as [|w ws IH]; intros c done H; simpl.
    - rewrite app_nil_r. exact H.
    - replace (done ++ w :: ws) with ((done ++ [w]) ++ ws)
        by (rewrite <- app_assoc; reflexivity).
      apply IH, counts_count_one, H. }
  apply (G [] []). split; [constructor|]. split.
  - intros k. reflexivity.
  - intros k n [].
Qed.

Lemma insert_desc_Permutation (x : str * nat) (l : Collections.counter) :
  Permutation (Collections.insert_desc x l) (x :: l).
Proof.
  induction l as [|y l IH]; simpl; [reflexivity|].
  destruct (snd x <? snd y); [|reflexivity].
  rewrite IH. apply perm_swap.
Qed.

Lemma sorted_desc_Permutation (c : Collections.counter) :
  Permutation (Collections.sorted_desc c) c.
Proof.
  induction c as [|x c IH]; simpl; [reflexivity|].
  rewrite insert_desc_Permutation. apply perm_skip, IH.
Qed.

Lemma insert_desc_sorted (x : str * nat) (l : Collections.counter) :
  StronglySorted (fun a b => snd b <= snd a) l ->
  StronglySorted (fun a b => snd b <= snd a) (Collections.insert_desc x l).
Proof.
  induction 1 as [|y l Hl IH Hy]; simpl; [repeat constructor|].
  destruct (snd x <? snd y) eqn:E.
  - apply Nat.ltb_lt in E. constructor; [exact IH|].
    rewrite (insert_desc_Permutation x l). constructor; [lia|exact Hy].
  - apply Nat.ltb_ge in E. constructor; [constructor; assumption|].
    constructor; [exact E|].
    eapply Forall_impl; [|exact Hy]. intros z Hz. simpl in Hz. lia.
Qed.

Lemma sorted_desc_sorted (c : Collections.counter) :
  StronglySorted (fun a b => snd b <= snd a) (Collections.sorted_desc c).
Proof.
  induction c as [|x c IH]; simpl; [constructor|].
  apply insert_desc_sorted, IH.
Qed.

Lemma StronglySorted_app_inv {A} (R : A -> A -> Prop) (l1 l2 : list A) :
  StronglySorted R (l1 ++ l2) ->
  StronglySorted R l1 /\
  forall x y, In x l1 -> In y l2 -> R x y.
Proof.
  induction l1 as [|a l1 IH]; simpl; intros H.
  - split; [constructor|]. intros x y [].
  - apply StronglySorted_inv in H. destruct H as [H Ha].
    destruct (IH H) as [H1 H12]. split.
    + constructor; [exact H1|].
      apply Forall_forall. intros z Hz.
      apply (proj1 (Forall_forall _ _) Ha), in_or_app. left. exact Hz.
    + intros x y [<-|Hx] Hy.
      * apply (proj1 (Forall_forall _ _) Ha), in_or_app. right. exact Hy.
      * apply H12; assumption.
Qed.

Lemma StronglySorted_map_fst (ws : list str) (l : Collections.counter) :
  (forall k n, In (k, n) l -> n = occurrences ws k) ->
  StronglySorted (fun a b => snd b <= snd a) l ->
  StronglySorted (fun a b => occurrences ws b <= occurrences ws a)
                 (map fst l).
Proof.
  intros Hn H. induction H as [|[k n] l Hl IH Hk]; simpl; constructor.
  - apply IH. intros k' n' H'. apply Hn. right. exact H'.
  - apply Forall_forall. intros k' H'. apply in_map_iff in H'.
    destruct H' as ([k'' n'] & <- & H'). simpl.
    rewrite <- (Hn k n) by (left; reflexivity).
    rewrite <- (Hn k'' n') by (right; exact H').
    exact (proj1 (Forall_forall _ _) Hk _ H').
Qed.

(** ** The order of the topics *)

Lemma topics_are_most_common (rt : Runtime) (text name : str) (w : World) :
  exists r,
    returned (analyze_document rt text name w) = Some r /\
    topics r =
      map fst (firstn 8 (Collections.sorted_desc
                           (Collections.Counter (clean_words text)))).
Proof.
  destruct (analyze_document_fields rt text name w)
    as (r & Hrun & _ & _ & _ & _ & _ & Htopics & _).
  exists r. rewrite Hrun. split; [reflexivity|]. exact Htopics.
Qed.

(** X2: no topic is listed twice, every topic is one of the counted words,
    and the topics stand in the order of their frequency among the counted
    words, the most frequent first. *)
Theorem topics_distinct_by_frequency
    (rt : Runtime) (text name : str) (w : World) :
  exists r,
    returned (analyze_document rt text name w) = Some r /\
    NoDup (topics r) /\
    (forall topic, In topic (topics r) -> In topic (clean_words text)) /\
    StronglySorted
      (fun a b => occurrences (clean_words text) b
                  <= occurrences (clean_words text) a)
      (topics r).
Proof.
  destruct (topics_are_most_common rt text name w) as (r & Hrun & Htopics).
  exists r. split; [exact Hrun|]. rewrite Htopics. clear Htopics.
  set (ws := clean_words text).
  destruct (Counter_counts ws) as (Hnd & Hkeys & Hn).
  pose proof (sorted_desc_Permutation (Collections.Counter ws)) as HP.
  pose proof (sorted_desc_sorted (Collections.Counter ws)) as HS.
  set (L := Collections.sorted_desc (Collections.Counter ws)) in *.
  rewrite <- (firstn_skipn 8 L) in HS.
  apply StronglySorted_app_inv in HS. destruct HS as [HS _].
  assert (HL : forall x, In x (firstn 8 L) -> In x (Collections.Counter ws)).
  { intros x Hx. apply (Permutation_in _ HP), (In_firstn _ _ _ Hx). }
  repeat split.
  - rewrite <- firstn_map. apply NoDup_firstn.
    apply (Permutation_NoDup (Permutation_sym (Permutation_map fst HP))).
    exact Hnd.
  - intros topic H. apply in_map_iff in H. destruct H as (x & <- & Hx).
    apply Hkeys, in_map, HL, Hx.
  - apply StronglySorted_map_fst; [|exact HS].
    intros k n H. apply Hn, HL, H.
Qed.

(** X3: the topics are the most frequent counted words: a counted word is
    left out only when eight topics are listed, each at least as frequent
    as the word. *)
Theorem topics_are_the_most_frequent
    (rt : Runtime) (text name : str) (w : World) :
  exists r,
    returned (analyze_document rt text name w) = Some r /\
    forall word, In word (clean_words text) ->
      In word (topics r) \/
      (length (topics r) = 8 /\
       forall topic, In topic (topics r) ->
         occurrences (clean_words text) word
         <= occurrences (clean_words text) topic).
Proof.
  destruct (topics_are_most_common rt text name w) as (r & Hrun & Htopics).
  exists r. split; [exact Hrun|]. rewrite Htopics. clear Htopics.
  set (ws := clean_words text).
  destruct (Counter_counts ws) as (Hnd & Hkeys & Hn).
  pose proof (sorted_desc_Permutation (Collections.Counter ws)) as HP.
  pose proof (sorted_desc_sorted (Collections.Counter ws)) as HS.
  set (L := Collections.sorted_desc (Collections.Counter ws)) in *.
  intros word Hword.
  apply Hkeys, in_map_iff in Hword. destruct Hword as ([k n] & Ek & Hk).
  simpl in Ek. subst k.
  apply (Permutation_in _ (Permutation_sym HP)) in Hk.
  assert (HL : forall x, In x L -> snd x = occurrences ws (fst x)).
  { intros [k m] Hx. apply Hn, (Permutation_in _ HP), Hx. }
  rewrite <- (firstn_skipn 8 L) in Hk, HS.
  apply in_app_or in Hk. destruct Hk as [Hk|Hk].
  - left. exact (in_map fst _ _ Hk).
  - right. split.
    + rewrite length_map, length_firstn.
      destruct (Nat.le_gt_cases (length L) 8) as [Hle|Hgt]; [|lia].
      rewrite skipn_all2 in Hk by exact Hle. destruct Hk.
    + intros topic H. apply in_map_iff in H. destruct H as (x & <- & Hx).
      apply StronglySorted_app_inv in HS. destruct HS as [_ HS].
      specialize (HS x (word, n) Hx Hk). simpl in HS.
      rewrite <- (HL x) by exact (In_firstn _ _ _ Hx).
      rewrite <- (Hn word n);
        [exact HS|].
      apply (Permutation_in _ HP).
      rewrite <- (firstn_skipn 8 L). apply in_or_app. right. exact Hk.
Qed.

(** ** Stripping *)

Section Strip.

Variable p : char -> bool.

Lemma lstrip_by_split (s : str) :
  exists front, s = front ++ lstrip_by p s /\ Forall (fun c => p c = true) front.
Proof.
  induction s as [|c s (front & E & H)]; simpl.
  - exists []. split; [reflexivity|constructor].
  - destruct (p c) eqn:Ec.
    + exists (c :: front). split; [simpl; f_equal; exact E|].
      constructor; assumption.
    + exists []. split; [reflexivity|constructor].
Qed.

Lemma lstrip_by_head (s : str) (c : char) (t : str) :
  lstrip_by p s = c :: t -> p c = false.
Proof.
  induction s as [|x s IH]; simpl; [discriminate|].
  destruct (p x) eqn:E; [exact IH|].
  intros H. injection H as <- _. exact E.
Qed.

Lemma lstrip_by_fixed (s : str) :
  (forall c t, s = c :: t -> p c = false) -> lstrip_by p s = s.
Proof.
  destruct s as [|c s]; simpl; [reflexivity|].
  intros H. rewrite (H c s eq_refl). reflexivity.
Qed.

Lemma strip_by_split (s : str) :
  exists front back, s = front ++ strip_by p s ++ back.
Proof.
  unfold strip_by, rstrip_by.
  destruct (lstrip_by_split s) as (front & E & _).
  destruct (lstrip_by_split (rev (lstrip_by p s))) as (back & E' & _).
  exists front, (rev back).
  rewrite <- rev_app_distr, <- E', rev_involutive. exact E.
Qed.

Lemma strip_by_Forall (P : char -> Prop) (s : str) :
  Forall P s -> Forall P (strip_by p s).
Proof.
  intros H. destruct (strip_by_split s) as (front & back & E).
  rewrite E in H. apply Forall_app in H. destruct H as [_ H].
  apply Forall_app in H. tauto.
Qed.

(** What is left of a string starts and ends with a character that is not
    stripped. *)
Lemma strip_by_first (s : str) (c : char) (t : str) :
  strip_by p s = c :: t -> p c = false.
Proof.
  unfold strip_by, rstrip_by. intros H.
  destruct (lstrip_by_split (rev (lstrip_by p s))) as (back & E & _).
  apply (f_equal (@rev char)) in E.
  rewrite rev_involutive, rev_app_distr, H in E. simpl in E.
  exact (lstrip_by_head s E).
Qed.

Lemma strip_by_last (s : str) (c : char) (t : str) :
  strip_by p s = t ++ [c] -> p c = false.
Proof.
  unfold strip_by, rstrip_by. intros H.
  apply (f_equal (@rev char)) in H.
  rewrite rev_involutive, rev_app_distr in H. simpl in H.
  exact (lstrip_by_head _ H).
Qed.

Lemma strip_by_idempotent (s : str) : strip_by p (strip_by p s) = strip_by p s.
Proof.
  assert (H1 : lstrip_by p (strip_by p s) = strip_by p s).
  { apply lstrip_by_fixed. intros c t. apply strip_by_first. }
  unfold strip_by at 1. rewrite H1. unfold strip_by, rstrip_by.
  rewrite rev_involutive. f_equal.
  apply lstrip_by_fixed. intros c t. apply lstrip_by_head.
Qed.

End Strip.

Lemma lower_in_cases (c : N) (table : list (N * N * N * N)) :
  Unicode.lower_in c table = c \/
  exists lo hi step to,
    In (lo, hi, step, to) table /\
    (lo <= c <= hi)%N /\ ((c - lo) mod step = 0)%N /\
    Unicode.lower_in c table = (to + (c - lo))%N.
Proof.
  induction table as [|[[[lo hi] step] to] table IH];
    cbn [Unicode.lower_in]; [left; reflexivity|].
  destruct (N.ltb_spec c lo) as [_|Hlo]; [left; reflexivity|].
  destruct (N.leb_spec c hi) as [Hhi|_]; cbn [andb].
  - destruct (N.eqb_spec ((c - lo) mod step) 0) as [Hm|_].
    + right. exists lo, hi, step, to.
      repeat split; [left; reflexivity|assumption..].
    + destruct IH as [IH|(lo' & hi' & step' & to' & Hin & H)];
        [left; exact IH|].
      right. exists lo', hi', step', to'. split; [right; exact Hin|exact H].
  - destruct IH as [IH|(lo' & hi' & step' & to' & Hin & H)];
      [left; exact IH|].
    right. exists lo', hi', step', to'. split; [right; exact Hin|exact H].
Qed.

Lemma lower_targets_hold (lo hi step to c : N) :
  (lo <= c <= hi)%N -> ((c - lo) mod step = 0)%N ->
  In (to + (c - lo))%N (lower_targets (lo, hi, step, to)).
Proof.
  intros Hc Hm. unfold lower_targets. apply in_map_iff.
  exists (N.to_nat ((c - lo) / step)). split.
  - rewrite N2Nat.id. f_equal. symmetry.
    destruct (N.eq_dec step 0) as [->|Hs].
    + rewrite N.mod_0_r in Hm. rewrite Hm. reflexivity.
    + apply N.Div0.div_exact. exact Hm.
  - apply in_seq. split; [apply Nat.le_0_l|].
    assert (H : ((c - lo) / step <= (hi - lo) / step)%N).
    { apply N.Div0.div_le_mono. lia. }
    lia.
Qed.

(** No lower case in the table has a lower case of its own. *)
Lemma lower_table_settled :
  forallb (fun entry => forallb is_lowered (lower_targets entry))
          Unicode.lower_table = true.
Proof.
  vm_compute. reflexivity.
Qed.

Lemma lower_one_lowered (c : char) : is_lowered (Unicode.lower_one c) = true.
Proof.
  unfold Unicode.lower_one.
  destruct (lower_in_cases c Unicode.lower_table)
    as [E|(lo & hi & step & to & Hin & Hc & Hm & E)].
  - fold (Unicode.lower_one c) in E. unfold is_lowered.
    fold (Unicode.lower_one c). rewrite E. apply N.eqb_eq, E.
  - rewrite E.
    pose proof (proj1 (forallb_forall _ _) lower_table_settled _ Hin) as H.
    cbv beta in H.
    exact (proj1 (forallb_forall _ _) H _
             (@lower_targets_hold lo hi step to c Hc Hm)).
Qed.

Lemma lower_from_is_lowered (s : str) :
  forall before, Forall (fun c => is_lowered c = true) (lower_from before s).
Proof.
  induction s as [|c s IH]; intros before; cbn [lower_from]; [constructor|].
  apply Forall_app. split; [|apply IH].
  destruct (char_eqb c 0x3A3%N).
  - destruct (final_sigma before s); repeat constructor.
  - unfold lower_full. destruct (char_eqb c 0x130%N);
      repeat constructor. apply lower_one_lowered.
Qed.

Lemma lower_fixed (s : str) :
  Forall (fun c => is_lowered c = true) s -> lower s = s.
Proof.
  intros H. unfold lower.
  rewrite <- (app_nil_r s) at 1. rewrite (lower_from_lowered H).
  cbn [lower_from]. apply app_nil_r.
Qed.

(** X4: every topic is in lower case and neither starts nor ends with one
    of the punctuation characters. *)
Theorem topics_are_normalised
    (rt : Runtime) (text name : str) (w : World) :
  exists r,
    returned (analyze_document rt text name w) = Some r /\
    forall topic, In topic (topics r) ->
      lower topic = topic /\
      (forall c rest, topic = c :: rest -> char_in punctuation c = false) /\
      (forall c front, topic = front ++ [c] ->
         char_in punctuation c = false).
Proof.
  destruct (topics_come_from_long_tokens rt text name w) as (r & Hrun & H).
  exists r. split; [exact Hrun|].
  intros topic Hin. destruct (H topic Hin) as (token & _ & -> & _).
  unfold strip_chars. repeat split.
  - apply lower_fixed, strip_by_Forall, lower_from_is_lowered.
  - intros c rest. apply strip_by_first.
  - intros c front. apply strip_by_last.
Qed.

(** ** The shape of the summary *)

Lemma split_on_from_segments (sep : char) (s w : str) :
  Forall (fun c => c <> sep) w ->
  Forall (Forall (fun c => c <> sep)) (split_on_from sep w s).
Proof.
  revert w. induction s as [|c s IH]; intros w Hw; cbn [split_on_from].
  - constructor; [apply Forall_rev; exact Hw|constructor].
  - unfold char_eqb. destruct (N.eqb_spec c sep) as [E|E].
    + constructor; [apply Forall_rev; exact Hw|]. apply IH. constructor.
    + apply IH. constructor; assumption.
Qed.

Lemma count_occ_absent (sep : char) (s : str) :
  Forall (fun c => c <> sep) s -> count_occ N.eq_dec s sep = 0.
Proof.
  intros H. apply count_occ_not_In. intros Hin.
  exact (proj1 (Forall_forall _ _) H sep Hin eq_refl).
Qed.

(** X5: the summary is never empty and always ends with a full stop.  With
    two sentences or more it holds exactly two full stops, the one that
    joins the two sentences and the one that closes them; with fewer it has
    at most 203 characters. *)
Theorem summary_shape (rt : Runtime) (text name : str) (w : World) :
  exists r,
    returned (analyze_document rt text name w) = Some r /\
    (exists body, summary r = body ++ py ".") /\
    let sentences := filter truthy (map strip (split_on 0x2E%N text)) in
    (2 <= length sentences ->
     count_occ N.eq_dec (summary r) 0x2E%N = 2) /\
    (length sentences < 2 -> length (summary r) <= 203).
Proof.
  destruct (analyze_document_fields rt text name w)
    as (r & Hrun & _ & _ & _ & _ & _ & _ & Hsum & _).
  exists r. rewrite Hrun. split; [reflexivity|].
  rewrite Hsum. cbv zeta. rewrite strip_kept_segments.
  assert (Hseg : Forall (Forall (fun c => c <> 0x2E%N))
                   (filter truthy (map strip (split_on 0x2E%N text)))).
  { apply Forall_forall. intros seg Hin.
    apply filter_In in Hin. destruct Hin as [Hin _].
    apply in_map_iff in Hin. destruct Hin as (raw & <- & Hraw).
    apply strip_by_Forall.
    exact (proj1 (Forall_forall _ _)
             (@split_on_from_segments 0x2E%N text [] (Forall_nil _))
             raw Hraw). }
  destruct (filter truthy (map strip (split_on 0x2E%N text)))
    as [|first [|second more]]; cbn [length Nat.leb].
  - split; [exists (firstn 200 text ++ py ".."); rewrite <- app_assoc;
            reflexivity|].
    split; [intros H; exfalso; simpl in H; lia|]. intros _.
    rewrite length_app.
    pose proof (length_firstn_le 200 text).
    change (length (py "...")) with 3. lia.
  - split; [exists (firstn 200 text ++ py ".."); rewrite <- app_assoc;
            reflexivity|].
    split; [intros H; exfalso; simpl in H; lia|]. intros _.
    rewrite length_app.
    pose proof (length_firstn_le 200 text).
    change (length (py "...")) with 3. lia.
  - cbn [firstn join].
    split; [eexists; reflexivity|]. split; [|intros H; exfalso; simpl in H; lia].
    intros _. inversion Hseg as [|? ? H1 Hseg']. inversion Hseg' as [|? ? H2 _].
    rewrite !count_occ_app.
    pose proof (count_occ_absent H1) as E1.
    pose proof (count_occ_absent H2) as E2.
    unfold str, char in *. rewrite E1, E2. reflexivity.
Qed.

(** ** What a match reads *)

Lemma last_of_app (pv : option char) (m1 m2 : str) :
  last_of pv (m1 ++ m2) = last_of (last_of pv m1) m2.
Proof.
  apply fold_left_app.
Qed.

Lemma last_of_snoc (pv : option char) (m : str) (c : char) :
  last_of pv (m ++ [c]) = Some c.
Proof.
  rewrite last_of_app. reflexivity.
Qed.

Lemma repeat_here_reads (cls : char -> bool) (k : Re.pos -> option Re.pos)
    (q : Re.pos) :
  forall (s : str) (lo : nat) (hi : option nat) (pv : option char) (tk : str),
    Re.repeat_here cls lo hi pv tk s k = Some q ->
    exists m s',
      s = m ++ s' /\
      k {| Re.prev := last_of pv m; Re.taken := rev m ++ tk; Re.rest := s' |}
        = Some q /\
      Forall (fun c => cls c = true) m /\ lo <= length m.
Proof.
  induction s as [|c s IH]; intros lo hi pv tk H; cbn [Re.repeat_here] in H.
  - destruct lo; [|discriminate]. exists [], [].
    repeat split; [exact H|constructor|apply Nat.le_refl].
  - assert (Hstop :
      match lo with
      | 0 => k {| Re.prev := pv; Re.taken := tk; Re.rest := c :: s |}
      | S _ => None
      end = Some q ->
      exists m s',
        c :: s = m ++ s' /\
        k {| Re.prev := last_of pv m; Re.taken := rev m ++ tk;
             Re.rest := s' |} = Some q /\
        Forall (fun c => cls c = true) m /\ lo <= length m).
    { intros E. destruct lo; [|discriminate]. exists [], (c :: s).
      repeat split; [exact E|constructor|apply Nat.le_refl]. }
    destruct (cls c) eqn:Ec; [|exact (Hstop H)].
    destruct (Re.more hi); [|exact (Hstop H)]. cbn [andb] in H.
    destruct (Re.repeat_here cls (Nat.pred lo) (Re.less hi) (Some c)
                (c :: tk) s k) as [q'|] eqn:E; [|exact (Hstop H)].
    injection H as <-.
    destruct (IH _ _ _ _ E) as (m & s' & -> & Hk & Hm & Hlen).
    exists (c :: m), s'. repeat split.
    + cbn [rev last_of fold_left]. rewrite <- app_assoc. exact Hk.
    + constructor; assumption.
    + simpl. lia.
Qed.

Lemma match_here_reads (r : Re.regex) :
  forall (p : Re.pos) (k : Re.pos -> option Re.pos) (q : Re.pos),
    Re.match_here r p k = Some q ->
    exists m s',
      Re.rest p = m ++ s' /\
      k (after p m s') = Some q /\
      Forall (fun c => alphabet r c = true) m /\
      Re.min_take r <= length m.
Proof.
  induction r as [| |cls|cls lo hi|r IH|r1 IH1 r2 IH2|r1 IH1 r2 IH2];
    intros p k q H; cbn [Re.match_here Re.min_take alphabet] in *.
  - exists [], (Re.rest p). destruct p.
    repeat split; [exact H|constructor|apply Nat.le_refl].
  - destruct (Re.at_boundary p); [|discriminate].
    exists [], (Re.rest p). destruct p.
    repeat split; [exact H|constructor|apply Nat.le_refl].
  - destruct p as [pv tk [|c s]]; cbn [Re.rest Re.taken] in *;
      [discriminate|].
    destruct (cls c) eqn:Ec; [|discriminate].
    exists [c], s. repeat split; [exact H|repeat constructor; exact Ec|].
    apply Nat.le_refl.
  - destruct (repeat_here_reads _ _ _ _ _ _ _ H)
      as (m & s' & E & Hk & Hm & Hlen).
    exists m, s'. repeat split; assumption.
  - destruct (Re.match_here r p k) as [q'|] eqn:E.
    + injection H as <-.
      destruct (IH _ _ _ E) as (m & s' & Es & Hk & Hm & _).
      exists m, s'. repeat split; [assumption..|apply Nat.le_0_l].
    + exists [], (Re.rest p). destruct p.
      repeat split; [exact H|constructor|apply Nat.le_refl].
  - destruct (IH1 _ _ _ H) as (m1 & s1 & E1 & H2 & Hm1 & Hl1).
    destruct (IH2 _ _ _ H2) as (m2 & s2 & E2 & Hk & Hm2 & Hl2).
    unfold after in *. cbn [Re.rest Re.prev Re.taken] in *.
    exists (m1 ++ m2), s2. repeat split.
    + rewrite E1, E2, app_assoc. reflexivity.
    + rewrite last_of_app, rev_app_distr, <- app_assoc. exact Hk.
    + apply Forall_app. split.
      * eapply Forall_impl; [|exact Hm1]. intros c ->. reflexivity.
      * eapply Forall_impl; [|exact Hm2]. intros c ->. apply orb_true_r.
    + rewrite length_app. lia.
  - destruct (Re.match_here r1 p k) as [q'|] eqn:E.
    + injection H as <-.
      destruct (IH1 _ _ _ E) as (m & s' & Es & Hk & Hm & Hl).
      exists m, s'. repeat split; [assumption..| |lia].
      eapply Forall_impl; [|exact Hm]. intros c ->. reflexivity.
    + destruct (IH2 _ _ _ H) as (m & s' & Es & Hk & Hm & Hl).
      exists m, s'. repeat split; [assumption..| |lia].
      eapply Forall_impl; [|exact Hm]. intros c ->. apply orb_true_r.
Qed.

(** Every string that [findall] lists stands in the text, is made of the
    characters of the pattern and has the least length of a match. *)
Lemma findall_from_matches (r : Re.regex) :
  1 <= Re.min_take r ->
  forall (n : nat) (pv : option char) (s m : str),
    In m (Re.findall_from n r pv s) ->
    exists front back,
      s = front ++ m ++ back /\
      Forall (fun c => alphabet r c = true) m /\
      Re.min_take r <= length m.
Proof.
  intros Hr. induction n as [|n IH]; intros pv s m H; [destruct H|].
  cbn [Re.findall_from] in H.
  destruct (Re.match_here r _ Some) as [q|] eqn:E.
  - destruct (match_here_reads r _ _ E) as (m' & s' & Es & Hk & Hm & Hl).
    injection Hk as <-. unfold after in H.
    cbn [Re.rest Re.prev Re.taken] in H, Es. rewrite app_nil_r in H.
    replace (length s' <? length s) with true in H
      by (symmetry; apply Nat.ltb_lt; rewrite Es, length_app; lia).
    destruct H as [H|H].
    + rewrite rev_involutive in H. subst m'.
      exists [], s'. repeat split; assumption.
    + destruct (IH _ _ _ H) as (front & back & E' & Hm' & Hl').
      exists (m' ++ front), back. repeat split; [|assumption..].
      rewrite Es, E', <- app_assoc. reflexivity.
  - destruct s as [|c s]; [destruct H|].
    destruct (IH _ _ _ H) as (front & back & E' & Hm' & Hl').
    exists (c :: front), back. repeat split; [|assumption..].
    rewrite E'. reflexivity.
Qed.

(** ** What the entity lists hold *)

Lemma listed_is_matched (rt : Runtime) (n : nat) (found : list str)
    (m : str) :
  In m (firstn n (list_set rt found)) -> In m found.
Proof.
  intros H. apply In_firstn in H.
  exact (proj1 (listing_In (set_listing rt) found m) H).
Qed.

Lemma findall_matches (r : Re.regex) (text m : str) :
  1 <= Re.min_take r ->
  In m (Re.findall r text) ->
  contains m text = true /\
  Forall (fun c => alphabet r c = true) m /\
  Re.min_take r <= length m.
Proof.
  intros Hr H.
  destruct (findall_from_matches r Hr _ _ _ _ H)
    as (front & back & -> & Hm & Hl).
  split; [apply contains_app|]. split; assumption.
Qed.

(** X6: every listed date, percentage and e-mail address stands in the
    text as it is listed: the lists hold nothing that was made up or
    changed. *)
Theorem entities_stand_in_the_text
    (rt : Runtime) (text name : str) (w : World) :
  exists r,
    returned (analyze_document rt text name w) = Some r /\
    forall m, In m (dates r) \/ In m (percentages r) \/ In m (emails r) ->
      contains m text = true.
Proof.
  destruct (analyze_document_fields rt text name w)
    as (r & Hrun & _ & _ & _ & _ & _ & _ & _ & Hd & Hp & He & _).
  exists r. rewrite Hrun. split; [reflexivity|].
  rewrite Hd, Hp, He.
  intros m [H|[H|H]]; apply listed_is_matched in H;
    apply findall_matches in H; try tauto; simpl; lia.
Qed.

Ltac char_cases c :=
  repeat match goal with
         | |- context [char_eqb c ?k] => destruct (char_eqb c k)
         | |- context [between ?a ?b c] => destruct (between a b c)
         end.

Lemma date_alphabet (c : char) :
  alphabet Re.date_pattern c = true ->
  Re.is_digit c || Re.one_of "/-" c = true.
Proof.
  unfold Re.date_pattern, Re.cat. cbn [fold_right alphabet].
  unfold Re.one_of, char_in. generalize (Re.is_digit c). intros digit.
  cbn. char_cases c; destruct digit; intros H; try reflexivity;
    discriminate H.
Qed.

Lemma percentage_alphabet (c : char) :
  alphabet Re.percentage_pattern c = true ->
  Re.is_digit c || Re.one_of ".%" c = true.
Proof.
  unfold Re.percentage_pattern, Re.cat. cbn [fold_right alphabet].
  unfold Re.one_of, char_in. generalize (Re.is_digit c). intros digit.
  cbn. char_cases c; destruct digit; intros H; try reflexivity;
    discriminate H.
Qed.

Lemma email_alphabet (c : char) :
  alphabet Re.email_pattern c = true ->
  Re.alnum c || Re.one_of "._%+-@|" c = true.
Proof.
  unfold Re.email_pattern, Re.cat. cbn [fold_right alphabet].
  unfold Re.alnum, Re.one_of, char_in. cbn.
  char_cases c; intros H; try reflexivity; discriminate H.
Qed.

(** X7: a listed date has at least four characters, all digits, slashes or
    hyphens; a listed percentage at least two, all digits, full stops or
    percent signs; a listed e-mail address at least six, all ASCII letters,
    digits or one of . _ % + - @ and the bar. *)
Theorem entity_shapes (rt : Runtime) (text name : str) (w : World) :
  exists r,
    returned (analyze_document rt text name w) = Some r /\
    (forall m, In m (dates r) ->
       4 <= length m /\
       Forall (fun c => Re.is_digit c || Re.one_of "/-" c = true) m) /\
    (forall m, In m (percentages r) ->
       2 <= length m /\
       Forall (fun c => Re.is_digit c || Re.one_of ".%" c = true) m) /\
    (forall m, In m (emails r) ->
       6 <= length m /\
       Forall (fun c => Re.alnum c || Re.one_of "._%+-@|" c = true) m).
Proof.
  destruct (analyze_document_fields rt text name w)
    as (r & Hrun & _ & _ & _ & _ & _ & _ & _ & Hd & Hp & He & _).
  exists r. rewrite Hrun. split; [reflexivity|].
  rewrite Hd, Hp, He.
  split; [|split]; intros m H; apply listed_is_matched in H;
    apply findall_matches in H; try (simpl; lia);
    destruct H as (_ & Hm & Hl); (split; [exact Hl|]);
    (eapply Forall_impl; [|exact Hm]); intros c;
    [apply date_alphabet|apply percentage_alphabet|apply email_alphabet].
Qed.

(** ** Percentages *)

Lemma match_here_Seq_reads (r1 r2 : Re.regex) (p : Re.pos)
    (k : Re.pos -> option Re.pos) (q : Re.pos) :
  Re.match_here (Re.Seq r1 r2) p k = Some q ->
  exists m s',
    Re.rest p = m ++ s' /\
    Re.match_here r2 (after p m s') k = Some q /\
    Forall (fun c => alphabet r1 c = true) m /\
    Re.min_take r1 <= length m.
Proof.
  intros H.
  exact (match_here_reads r1 p (fun q' => Re.match_here r2 q' k) H).
Qed.

(** A match of the percentage pattern ends with a percent sign that stands
    right before a word character. *)
Lemma percentage_match_end (p q : Re.pos) :
  Re.match_here Re.percentage_pattern p Some = Some q ->
  exists m d t,
    Re.rest p = m ++ 0x25%N :: d :: t /\ Re.is_word d = true.
Proof.
  unfold Re.percentage_pattern, Re.cat. cbn [fold_right]. intros H.
  apply match_here_Seq_reads in H. destruct H as (m0 & s0 & E0 & H & _).
  apply match_here_Seq_reads in H. destruct H as (m1 & s1 & E1 & H & _).
  apply match_here_Seq_reads in H. destruct H as (m2 & s2 & E2 & H & _).
  apply match_here_Seq_reads in H.
  destruct H as (m3 & s3 & E3 & H & Hm3 & Hl3).
  unfold after in E1, E2, E3. cbn [Re.rest] in E1, E2, E3.
  cbn [Re.match_here Re.min_take] in H, Hl3.
  destruct (Re.at_boundary _) eqn:Hb in H; [|discriminate].
  destruct (exists_last (l := m3)) as (m3' & c & ->);
    [intros ->; simpl in Hl3; lia|].
  apply Forall_app in Hm3. destruct Hm3 as [_ Hc].
  inversion Hc as [|? ? Hc' _]. cbn [alphabet] in Hc'.
  unfold Re.one_of, char_in in Hc'. cbn in Hc'.
  rewrite orb_false_r in Hc'. apply N.eqb_eq in Hc'. subst c.
  unfold Re.at_boundary, after in Hb. cbn [Re.prev Re.rest] in Hb.
  rewrite last_of_snoc in Hb.
  destruct s3 as [|d t]; [discriminate Hb|].
  exists (m0 ++ m1 ++ m2 ++ m3'), d, t. split.
  - rewrite E0, E1, E2, E3, <- !app_assoc. reflexivity.
  - exact Hb.
Qed.

Lemma percent_before_word_found (m : str) (d : char) (t : str) :
  Re.is_word d = true ->
  percent_before_word (m ++ 0x25%N :: d :: t) = true.
Proof.
  intros Hd. induction m as [|c m IH].
  - cbn [app percent_before_word]. rewrite Hd. reflexivity.
  - cbn [app]. destruct (m ++ 0x25%N :: d :: t) as [|x l] eqn:E.
    + destruct m; discriminate E.
    + cbn [percent_before_word]. cbn [percent_before_word] in IH.
      rewrite IH. apply orb_true_r.
Qed.

Lemma percent_before_word_tail (c : char) (s : str) :
  percent_before_word (c :: s) = false -> percent_before_word s = false.
Proof.
  destruct s as [|d s]; [reflexivity|]. cbn [percent_before_word].
  intros H. apply orb_false_iff in H. tauto.
Qed.

Lemma no_percentage_without_word (n : nat) :
  forall (pv : option char) (s : str),
    percent_before_word s = false ->
    Re.findall_from n Re.percentage_pattern pv s = [].
Proof.
  induction n as [|n IH]; intros pv s H; [reflexivity|].
  cbn [Re.findall_from].
  destruct (Re.match_here Re.percentage_pattern _ Some) as [q|] eqn:E.
  - apply percentage_match_end in E. destruct E as (m & d & t & E & Hd).
    cbn [Re.rest] in E. subst s. exfalso.
    exact (eq_true_false_abs _ (@percent_before_word_found m d t Hd) H).
  - destruct s as [|c s]; [reflexivity|].
    apply IH, (@percent_before_word_tail c s H).
Qed.

(** X8: no percentage is listed unless some percent sign of the text stands
    right before a letter, a digit or an underscore: the percentages of
    ordinary prose, followed by a space, a comma, a full stop or the end of
    the text, are never found. *)
Theorem percentages_need_a_word_after
    (rt : Runtime) (text name : str) (w : World) :
  percent_before_word text = false ->
  exists r,
    returned (analyze_document rt text name w) = Some r /\
    percentages r = [].
Proof.
  intros H.
  destruct (analyze_document_fields rt text name w)
    as (r & Hrun & _ & _ & _ & _ & _ & _ & _ & _ & Hp & _).
  exists r. rewrite Hrun. split; [reflexivity|].
  rewrite Hp. unfold Re.findall.
  rewrite (no_percentage_without_word _ None text H), list_set_nil.
  reflexivity.
Qed.

Lemma percentages_need_a_word_after_witness :
  percent_before_word business_report = false /\
  exists r,
    returned (analyze_document bare_runtime business_report
                (py "business_report.txt") epoch) = Some r /\
    percentages r = [].
Proof.
  split; [vm_compute; reflexivity|].
  apply (@percentages_need_a_word_after bare_runtime business_report
           (py "business_report.txt") epoch).
  vm_compute. reflexivity.
Defined.

(** ** The caps *)

Lemma list_set_length (rt : Runtime) (found : list str) :
  length (list_set rt found) = length (nodup str_eq_dec found).
Proof.
  apply Permutation_length, NoDup_Permutation.
  - apply listing_NoDup.
  - apply NoDup_nodup.
  - intros x. unfold list_set. rewrite listing_In, nodup_In. reflexivity.
Qed.

Lemma listed_all (rt : Runtime) (n : nat) (found : list str) :
  length (nodup str_eq_dec found) <= n ->
  forall m, In m (firstn n (list_set rt found)) <-> In m found.
Proof.
  intros H m. rewrite firstn_all2 by (rewrite list_set_length; exact H).
  apply listing_In.
Qed.

(** X9: each entity list has as many entries as there are different
    matches of its pattern in the text, up to its cap. *)
Theorem entity_counts (rt : Runtime) (text name : str) (w : World) :
  exists r,
    returned (analyze_document rt text name w) = Some r /\
    length (dates r)
    = Nat.min 5 (length (nodup str_eq_dec (Re.findall Re.date_pattern text)))
    /\
    length (percentages r)
    = Nat.min 5 (length (nodup str_eq_dec
                           (Re.findall Re.percentage_pattern text))) /\
    length (emails r)
    = Nat.min 3 (length (nodup str_eq_dec
                           (Re.findall Re.email_pattern text))).
Proof.
  destruct (analyze_document_fields rt text name w)
    as (r & Hrun & _ & _ & _ & _ & _ & _ & _ & Hd & Hp & He & _).
  exists r. rewrite Hrun. split; [reflexivity|].
  rewrite Hd, Hp, He, !length_firstn, !list_set_length. repeat split.
Qed.

(** X10: while the text has at most five different dates, five different
    percentages and three different e-mail addresses, nothing is cut: each
    list holds exactly the matches of its pattern. *)
Theorem entities_complete_below_caps
    (rt : Runtime) (text name : str) (w : World) :
  length (nodup str_eq_dec (Re.findall Re.date_pattern text)) <= 5 ->
  length (nodup str_eq_dec (Re.findall Re.percentage_pattern text)) <= 5 ->
  length (nodup str_eq_dec (Re.findall Re.email_pattern text)) <= 3 ->
  exists r,
    returned (analyze_document rt text name w) = Some r /\
    (forall m, In m (dates r) <-> In m (Re.findall Re.date_pattern text)) /\
    (forall m, In m (percentages r) <->
               In m (Re.findall Re.percentage_pattern text)) /\
    (forall m, In m (emails r) <-> In m (Re.findall Re.email_pattern text)).
Proof.
  intros H1 H2 H3.
  destruct (analyze_document_fields rt text name w)
    as (r & Hrun & _ & _ & _ & _ & _ & _ & _ & Hd & Hp & He & _).
  exists r. rewrite Hrun. split; [reflexivity|].
  rewrite Hd, Hp, He.
  split; [|split]; apply listed_all; assumption.
Qed.

Lemma entities_complete_below_caps_witness :
  (length (nodup str_eq_dec (Re.findall Re.date_pattern scenario)) <= 5 /\
   length (nodup str_eq_dec (Re.findall Re.percentage_pattern scenario)) <= 5
   /\
   length (nodup str_eq_dec (Re.findall Re.email_pattern scenario)) <= 3) /\
  exists r,
    returned (analyze_document reversed_runtime scenario (py "scenario.txt")
                epoch) = Some r /\
    (forall m, In m (dates r) <-> In m (Re.findall Re.date_pattern scenario))
    /\
    (forall m, In m (percentages r) <->
               In m (Re.findall Re.percentage_pattern scenario)) /\
    (forall m, In m (emails r) <->
               In m (Re.findall Re.email_pattern scenario)).
Proof.
  split; [repeat split; vm_compute; repeat constructor|].
  apply (@entities_complete_below_caps reversed_runtime scenario
           (py "scenario.txt") epoch);
    vm_compute; repeat constructor.
Defined.

(** ** The score *)

(** X11: [readability] is the score of [textstat] when the module can be
    imported, the text is not empty and the scorer returns; an exception
    of the scorer is swallowed and leaves the integer 0, as a missing
    module and an empty text do. *)
Theorem readability_is_score_or_zero
    (rt : Runtime) (text name : str) (w : World) :
  exists r,
    returned (analyze_document rt text name w) = Some r /\
    ((exists flesch_reading_ease score,
        textstat rt = Some flesch_reading_ease /\ text <> [] /\
        flesch_reading_ease text = Returned score /\
        readability r = PyFloat score)
     \/
     (readability r = PyInt 0 /\
      (text = [] \/ textstat rt = None \/
       exists flesch_reading_ease e,
         textstat rt = Some flesch_reading_ease /\
         flesch_reading_ease text = Raised e))).
Proof.
  destruct (analyze_document_fields rt text name w)
    as (r & Hrun & _ & _ & _ & _ & Hscore & _).
  exists r. rewrite Hrun. split; [reflexivity|].
  rewrite Hscore. unfold score_of.
  destruct (textstat rt) as [f|]; [|right; auto].
  destruct text as [|c text]; [right; auto|]. cbn [truthy].
  destruct (f (c :: text)) as [score|e] eqn:E.
  - left. exists f, score. repeat split; [discriminate|exact E].
  - right. split; [reflexivity|]. right. right. exists f, e. auto.
Qed.

(** ** The library check *)

(** X12: [check_libraries] raises nothing, whatever is installed; it
    returns the three keys pdf, docx and textstat, each with the truth of
    its import, so [all(libs.values())] holds exactly when nothing is
    missing. *)
Theorem check_libraries_reports_imports (m : Machine) (w : World) :
  exists libs,
    check_libraries m w = (Returned libs, w) /\
    map fst libs = [py "pdf"; py "docx"; py "textstat"] /\
    getitem (py "pdf") libs = Some (installed (PyPDF2 m)) /\
    getitem (py "docx") libs = Some (installed (docx m)) /\
    getitem (py "textstat") libs
    = Some (installed (textstat (interpreter m))) /\
    (all_values libs = true <->
     installed (PyPDF2 m) = true /\ installed (docx m) = true /\
     installed (textstat (interpreter m)) = true).
Proof.
  unfold check_libraries, bind, try_except, import_PyPDF2, import_docx,
    import_textstat, ret, raise.
  destruct (PyPDF2 m), (docx m), (textstat (interpreter m));
    eexists; (split; [reflexivity|]); cbn; intuition congruence.
Qed.

(** X13: when [check_libraries] reports textstat as missing, every analysis
    in the same interpreter has the readability 0. *)
Theorem missing_textstat_means_zero
    (m : Machine) (text name : str) (w w' : World) :
  exists libs r,
    check_libraries m w = (Returned libs, w) /\
    returned (analyze_document (interpreter m) text name w') = Some r /\
    (getitem (py "textstat") libs = Some false -> readability r = PyInt 0).
Proof.
  destruct (analyze_document_fields (interpreter m) text name w')
    as (r & Hrun & _ & _ & _ & _ & Hscore & _).
  unfold check_libraries, bind, try_except, import_PyPDF2, import_docx,
    import_textstat, ret, raise.
  rewrite Hrun. unfold score_of in Hscore.
  destruct (PyPDF2 m), (docx m), (textstat (interpreter m));
    eexists; exists r; (split; [reflexivity|]); (split; [reflexivity|]);
    cbn; congruence.
Qed.

(** ** Text extraction *)

Lemma pages_text_returned (texts : list str) :
  forall text,
    pages_text (map Returned texts) text
    = Returned (text ++ concat (map (fun t => t ++ [0x0A%N]) texts)).
Proof.
  induction texts as [|t texts IH]; intros text; simpl.
  - rewrite app_nil_r. reflexivity.
  - rewrite IH, <- !app_assoc. reflexivity.
Qed.

Lemma strip_blank (s : str) :
  Forall (fun c => isspace c = true) s -> strip s = [].
Proof.
  intros H. unfold strip, strip_by.
  replace (lstrip_by isspace s) with (@nil char); [reflexivity|].
  symmetry. induction H as [|c s Hc _ IH]; simpl; [reflexivity|].
  rewrite Hc. exact IH.
Qed.

Lemma error_message_words (message : str) :
  3 <= length (split_ws (py "Error extracting text: " ++ message)).
Proof.
  unfold split_ws. cbn. lia.
Qed.

(** X14: [extract_text_from_file] raises nothing, whatever fails: a missing
    module, a missing file, a reader or a page that raises.  What it returns
    is the message "Error extracting text: " with the text of the
    exception, or, for a PDF or Word file, a text without white space at
    either end, or, for any other type, what the file holds. *)
Theorem extract_text_returns
    (m : Machine) (file_path file_type : str) (w : World) :
  exists text,
    extract_text_from_file m file_path file_type w = (Returned text, w) /\
    ((exists e, text = py "Error extracting text: " ++ str_exn m e) \/
     ((file_type = py "pdf" \/ file_type = py "docx") /\ strip text = text)
     \/
     (file_type <> py "pdf" /\ file_type <> py "docx" /\
      read_text m file_path = Returned text)).
Proof.
  unfold extract_text_from_file, bind, try_except, import_PyPDF2,
    import_docx, ret, raise, call.
  destruct (PyStr.eqb file_type (py "pdf")) eqn:Epdf.
  - apply eqb_eq in Epdf.
    destruct (PyPDF2 m) as [reader|]; [|eexists; split; eauto].
    destruct (reader file_path) as [pages|e]; [|eexists; split; eauto].
    destruct (pages_text pages []) as [text|e]; [|eexists; split; eauto].
    eexists. split; [reflexivity|]. right. left.
    split; [left; exact Epdf|apply strip_by_idempotent].
  - destruct (PyStr.eqb file_type (py "docx")) eqn:Edocx.
    + apply eqb_eq in Edocx.
      destruct (docx m) as [reader|]; [|eexists; split; eauto].
      destruct (reader file_path) as [paragraphs|e];
        [|eexists; split; eauto].
      eexists. split; [reflexivity|]. right. left.
      split; [right; exact Edocx|apply strip_by_idempotent].
    + destruct (read_text m file_path) as [text|e] eqn:E;
        [|eexists; split; eauto].
      eexists. split; [reflexivity|]. right. right. repeat split.
      * intros H. apply eqb_eq in H. congruence.
      * intros H. apply eqb_eq in H. congruence.
Qed.

(** X15: a PDF whose pages hold nothing but white space (or that has no
    page) is extracted as the empty string, which [main] does not hand to
    the analyzer. *)
Theorem blank_pdf_gives_no_text
    (m : Machine) (file_path : str) (w : World)
    (reader : str -> outcome (list (outcome str))) (texts : list str) :
  PyPDF2 m = Some reader ->
  reader file_path = Returned (map Returned texts) ->
  Forall (Forall (fun c => isspace c = true)) texts ->
  exists text,
    extract_text_from_file m file_path (py "pdf") w = (Returned text, w) /\
    text = [] /\ analyzed text = false.
Proof.
  intros Hm Hr Hblank. exists [].
  unfold extract_text_from_file, bind, try_except, import_PyPDF2, ret, call.
  cbn [PyStr.eqb]. rewrite eqb_refl, Hm, Hr, pages_text_returned.
  rewrite strip_blank; [repeat split|].
  cbn [app]. clear Hr. induction Hblank as [|t texts Ht _ IH]; simpl; [constructor|].
  apply Forall_app. split; [|exact IH].
  apply Forall_app. split; [exact Ht|repeat constructor].
Qed.

Lemma blank_pdf_gives_no_text_witness :
  (PyPDF2 (full_machine [py "  "; []] []) = Some (fun _ => Returned
     (map Returned [py "  "; []])) /\
   Forall (Forall (fun c => isspace c = true)) [py "  "; []]) /\
  exists text,
    extract_text_from_file (full_machine [py "  "; []] []) (py "scan.pdf")
      (py "pdf") epoch = (Returned text, epoch) /\
    text = [] /\ analyzed text = false.
Proof.
  assert (H : Forall (Forall (fun c => isspace c = true)) [py "  "; []]).
  { repeat constructor. }
  split; [split; [reflexivity|exact H]|].
  exact (@blank_pdf_gives_no_text (full_machine [py "  "; []] [])
           (py "scan.pdf") epoch _ [py "  "; []] eq_refl eq_refl H).
Defined.

(** X16: when the reader module of a PDF or Word file is missing, the
    failure is returned as a text; [main] hands that text to the analyzer
    as if it were the document, and the analysis counts the words of the
    message, three at least. *)
Theorem missing_reader_message_is_analyzed
    (m : Machine) (file_path file_type : str) (w : World) :
  (file_type = py "pdf" /\ PyPDF2 m = None) \/
  (file_type = py "docx" /\ docx m = None) ->
  exists text,
    extract_text_from_file m file_path file_type w = (Returned text, w) /\
    text = py "Error extracting text: " ++ str_exn m ImportError /\
    analyzed text = true /\
    forall (rt : Runtime) (name : str) (w' : World),
      exists r,
        returned (analyze_document rt text name w') = Some r /\
        3 <= word_count r.
Proof.
  intros H. exists (py "Error extracting text: " ++ str_exn m ImportError).
  split.
  - unfold extract_text_from_file, bind, try_except, import_PyPDF2,
      import_docx, ret, raise.
    destruct H as [[-> ->]|[-> ->]]; reflexivity.
  - split; [reflexivity|]. split; [reflexivity|].
    intros rt name w'.
    destruct (analyze_document_fields rt
                (py "Error extracting text: " ++ str_exn m ImportError)
                name w') as (r & Hrun & _ & Hw & _).
    exists r. rewrite Hrun. split; [reflexivity|].
    rewrite Hw. exact (error_message_words (str_exn m ImportError)).
Qed.

Lemma missing_reader_message_is_analyzed_witness :
  ((py "pdf" = py "pdf" /\ PyPDF2 bare_machine = None) \/
   (py "pdf" = py "docx" /\ docx bare_machine = None)) /\
  exists text,
    extract_text_from_file bare_machine (py "report.pdf") (py "pdf") epoch
    = (Returned text, epoch) /\
    text = py "Error extracting text: " ++ str_exn bare_machine ImportError /\
    analyzed text = true /\
    forall (rt : Runtime) (name : str) (w' : World),
      exists r,
        returned (analyze_document rt text name w') = Some r /\
        3 <= word_count r.
Proof.
  assert (H : (py "pdf" = py "pdf" /\ PyPDF2 bare_machine = None) \/
              (py "pdf" = py "docx" /\ docx bare_machine = None)).
  { left. split; reflexivity. }
  split; [exact H|].
  exact (@missing_reader_message_is_analyzed bare_machine (py "report.pdf")
           (py "pdf") epoch H).
Defined.

(** ** What [main] shows *)

(** X17: the "Type" metric never fails: for every record of the analyzer
    [doc_type.split(' ', 1)] has a second element, the name of the class
    without its icon. *)
Theorem type_metric_is_a_class_name
    (rt : Runtime) (text name : str) (w : World) :
  exists r shown,
    returned (analyze_document rt text name w) = Some r /\
    type_metric r = Some shown /\
    In shown class_names /\
    doc_type r = firstn 1 (doc_type r) ++ py " " ++ shown.
Proof.
  destruct (analyze_document_fields rt text name w)
    as (r & Hrun & _ & _ & _ & Htype & _).
  assert (H : In (doc_type r) labels).
  { rewrite Htype. unfold labels.
    destruct (any_in academic_words _); [simpl; tauto|].
    destruct (any_in business_words _); [simpl; tauto|].
    destruct (any_in literary_words _); [simpl; tauto|].
    destruct (_ <? 100); simpl; tauto. }
  exists r, (skipn 2 (doc_type r)). rewrite Hrun. unfold type_metric.
  destruct H as [<-|[<-|[<-|[<-|[<-|[]]]]]];
    (split; [reflexivity|]); (split; [reflexivity|]);
    (split; [simpl; tauto|reflexivity]).
Qed.

(** X18: the "Readability" metric reads N/A when no score was computed (an
    empty text, no [textstat], a scorer that raised) and also when the
    computed score is zero. *)
Theorem readability_metric_not_available
    (format_0f : value -> str) (rt : Runtime) (text name : str) (w : World) :
  text = [] \/ textstat rt = None \/
  (exists flesch_reading_ease e,
     textstat rt = Some flesch_reading_ease /\
     flesch_reading_ease text = Raised e) \/
  (exists flesch_reading_ease score,
     textstat rt = Some flesch_reading_ease /\
     flesch_reading_ease text = Returned score /\
     PrimFloat.eqb score 0%float = true) ->
  exists r,
    returned (analyze_document rt text name w) = Some r /\
    readability_metric format_0f r = py "N/A".
Proof.
  intros H.
  destruct (analyze_document_fields rt text name w)
    as (r & Hrun & _ & _ & _ & _ & Hscore & _).
  exists r. rewrite Hrun. split; [reflexivity|].
  unfold readability_metric. rewrite Hscore. unfold score_of.
  destruct H as [->|[->|[(f & e & -> & E)|(f & x & -> & E & Hx)]]].
  - destruct (textstat rt); reflexivity.
  - reflexivity.
  - destruct (truthy text); [rewrite E|]; reflexivity.
  - destruct (truthy text); [rewrite E|]; cbn; [rewrite Hx|]; reflexivity.
Qed.

Lemma readability_metric_not_available_witness :
  (py "Hello there." = [] \/
   textstat (scoring_runtime 0%float) = None \/
   (exists flesch_reading_ease e,
      textstat (scoring_runtime 0%float) = Some flesch_reading_ease /\
      flesch_reading_ease (py "Hello there.") = Raised e) \/
   (exists flesch_reading_ease score,
      textstat (scoring_runtime 0%float) = Some flesch_reading_ease /\
      flesch_reading_ease (py "Hello there.") = Returned score /\
      PrimFloat.eqb score 0%float = true)) /\
  exists r,
    returned (analyze_document (scoring_runtime 0%float) (py "Hello there.")
                (py "hello.txt") epoch) = Some r /\
    readability_metric (fun _ => py "0") r = py "N/A".
Proof.
  assert (H : py "Hello there." = [] \/
    textstat (scoring_runtime 0%float) = None \/
    (exists flesch_reading_ease e,
       textstat (scoring_runtime 0%float) = Some flesch_reading_ease /\
       flesch_reading_ease (py "Hello there.") = Raised e) \/
    (exists flesch_reading_ease score,
       textstat (scoring_runtime 0%float) = Some flesch_reading_ease /\
       flesch_reading_ease (py "Hello there.") = Returned score /\
       PrimFloat.eqb score 0%float = true)).
  { right. right. right. eexists. exists 0%float.
    repeat split; reflexivity. }
  split; [exact H|].
  exact (@readability_metric_not_available (fun _ => py "0")
           (scoring_runtime 0%float) (py "Hello there.") (py "hello.txt")
           epoch H).
Defined.

Lemma join_head (sep d : str) (rest : list str) :
  exists tail, join sep (d :: rest) = d ++ tail.
Proof.
  destruct rest as [|d' rest]; cbn [join].
  - exists []. rewrite app_nil_r. reflexivity.
  - eexists. reflexivity.
Qed.

Lemma entity_line_by_first_char (cls : char -> bool) (found : list str) :
  cls 0x4E%N = false ->
  (forall m, In m found ->
     1 <= length m /\ Forall (fun c => cls c = true) m) ->
  entity_line found = py "None" -> found = [].
Proof.
  intros HN Hshape H. destruct found as [|d rest]; [reflexivity|exfalso].
  cbn [entity_line] in H.
  destruct (join_head (py ", ") d rest) as (tail & E). rewrite E in H.
  destruct (Hshape d (or_introl eq_refl)) as [Hl Hd].
  destruct d as [|c d]; [simpl in Hl; lia|].
  inversion Hd as [|? ? Hc _]. injection H as -> _.
  rewrite HN in Hc. discriminate Hc.
Qed.

Lemma entity_line_by_length (found : list str) :
  (forall m, In m found -> 5 <= length m) ->
  entity_line found = py "None" -> found = [].
Proof.
  intros Hshape H. destruct found as [|d rest]; [reflexivity|exfalso].
  cbn [entity_line] in H.
  destruct (join_head (py ", ") d rest) as (tail & E). rewrite E in H.
  pose proof (Hshape d (or_introl eq_refl)) as Hl.
  apply (f_equal (@length char)) in H. rewrite length_app in H.
  change (length (py "None")) with 4 in H. lia.
Qed.

(** X19: in the text report the lines "Dates:", "Percentages:" and
    "Emails:" read None only when the list is empty: no date, percentage or
    e-mail address that the analyzer lists can be written as None. *)
Theorem report_none_means_nothing_found
    (rt : Runtime) (text name : str) (w : World) :
  exists r,
    returned (analyze_document rt text name w) = Some r /\
    (entity_line (dates r) = py "None" <-> dates r = []) /\
    (entity_line (percentages r) = py "None" <-> percentages r = []) /\
    (entity_line (emails r) = py "None" <-> emails r = []).
Proof.
  destruct (analyze_document_fields rt text name w)
    as (r & Hrun & _ & _ & _ & _ & _ & _ & _ & Hd & Hp & He & _).
  exists r. rewrite Hrun. split; [reflexivity|].
  split; [|split]; (split; [|intros ->; reflexivity]).
  - apply (@entity_line_by_first_char
             (fun c => Re.is_digit c || Re.one_of "/-" c));
      [reflexivity|].
    intros m H. rewrite Hd in H. apply listed_is_matched in H.
    apply findall_matches in H; [|simpl; lia].
    destruct H as (_ & Hm & Hl). split; [simpl in Hl; lia|].
    eapply Forall_impl; [|exact Hm]. intros c. apply date_alphabet.
  - apply (@entity_line_by_first_char
             (fun c => Re.is_digit c || Re.one_of ".%" c));
      [reflexivity|].
    intros m H. rewrite Hp in H. apply listed_is_matched in H.
    apply findall_matches in H; [|simpl; lia].
    destruct H as (_ & Hm & Hl). split; [simpl in Hl; lia|].
    eapply Forall_impl; [|exact Hm]. intros c. apply percentage_alphabet.
  - apply entity_line_by_length.
    intros m H. rewrite He in H. apply listed_is_matched in H.
    apply findall_matches in H; [|simpl; lia].
    destruct H as (_ & _ & Hl). simpl in Hl. lia.
Qed.

(** ** Ties between topics *)

Lemma mem_In (w : str) (ws : list str) : mem w ws = true <-> In w ws.
Proof.
  unfold mem. rewrite existsb_exists. split.
  - intros (x & Hx & E). apply eqb_eq in E. subst x. exact Hx.
  - intros H. exists w. split; [exact H|apply eqb_refl].
Qed.

Lemma first_seen_ext (seen seen' ws : list str) :
  (forall w, In w seen <-> In w seen') ->
  first_seen seen ws = first_seen seen' ws.
Proof.
  revert seen seen'. induction ws as [|w ws IH]; intros seen seen' H;
    cbn [first_seen]; [reflexivity|].
  assert (E : mem w seen = mem w seen').
  { apply eq_true_iff_eq. rewrite !mem_In. apply H. }
  rewrite E. destruct (mem w seen'); [apply IH, H|].
  f_equal. apply IH. intros x. simpl. rewrite H. reflexivity.
Qed.

Lemma Counter_keys_first_seen (ws : list str) :
  map fst (Collections.Counter ws) = first_seen [] ws.
Proof.
  unfold Collections.Counter.
  assert (G : forall c,
            map fst (fold_left (fun c w => Collections.count_one w c) ws c)
            = map fst c ++ first_seen (map fst c) ws).
  { induction ws as [|w ws IH]; intros c; cbn [fold_left first_seen].
    - rewrite app_nil_r. reflexivity.
    - rewrite IH. destruct (mem w (map fst c)) eqn:E.
      + apply mem_In in E.
        destruct (count_one_old w c E) as (c1 & n & c2 & Ec & ->).
        rewrite Ec, !map_app. reflexivity.
      + assert (Hout : ~ In w (map fst c)).
        { intros H. apply mem_In in H. congruence. }
        rewrite (count_one_new w c Hout), map_app, <- app_assoc.
        cbn [map fst app]. do 2 f_equal. apply first_seen_ext.
        intros x. rewrite in_app_iff. simpl. tauto. }
  exact (G []).
Qed.

(** The sort is stable: the entries of any one count keep their order. *)
Lemma insert_desc_stable (n : nat) (x : str * nat) (l : Collections.counter) :
  filter (fun e => snd e =? n) (Collections.insert_desc x l)
  = filter (fun e => snd e =? n) (x :: l).
Proof.
  induction l as [|y l IH]; cbn [Collections.insert_desc]; [reflexivity|].
  destruct (snd x <? snd y) eqn:E; [|reflexivity].
  apply Nat.ltb_lt in E. cbn [filter] in *. rewrite IH.
  destruct (Nat.eqb_spec (snd x) n), (Nat.eqb_spec (snd y) n);
    try reflexivity.
  lia.
Qed.

Lemma sorted_desc_stable (n : nat) (c : Collections.counter) :
  filter (fun e => snd e =? n) (Collections.sorted_desc c)
  = filter (fun e => snd e =? n) c.
Proof.
  induction c as [|x c IH]; cbn [Collections.sorted_desc fold_right];
    [reflexivity|].
  fold (Collections.sorted_desc c).
  rewrite insert_desc_stable. cbn [filter]. rewrite IH. reflexivity.
Qed.

Lemma filter_keys (ws : list str) (n : nat) (l : Collections.counter) :
  (forall k m, In (k, m) l -> m = occurrences ws k) ->
  filter (fun k => occurrences ws k =? n) (map fst l)
  = map fst (filter (fun e => snd e =? n) l).
Proof.
  induction l as [|[k m] l IH]; intros H; cbn [map filter fst snd];
    [reflexivity|].
  rewrite <- (H k m) by (left; reflexivity).
  rewrite IH by (intros k' m' H'; apply H; right; exact H').
  destruct (m =? n); reflexivity.
Qed.

(** X20: ties are broken by first appearance: for every count, the topics
    of that count are the first words of that count, in the order in which
    the words first appear among the counted words. *)
Theorem topic_ties_in_order_of_appearance
    (rt : Runtime) (text name : str) (w : World) :
  exists r,
    returned (analyze_document rt text name w) = Some r /\
    forall n, exists later,
      filter (fun k => occurrences (clean_words text) k =? n)
             (first_seen [] (clean_words text))
      = filter (fun k => occurrences (clean_words text) k =? n) (topics r)
        ++ later.
Proof.
  destruct (topics_are_most_common rt text name w) as (r & Hrun & Htopics).
  exists r. split; [exact Hrun|]. rewrite Htopics. clear Htopics.
  set (ws := clean_words text).
  destruct (Counter_counts ws) as (_ & _ & Hn).
  pose proof (sorted_desc_Permutation (Collections.Counter ws)) as HP.
  intros n.
  set (L := Collections.sorted_desc (Collections.Counter ws)) in *.
  assert (HL : forall k m, In (k, m) L -> m = occurrences ws k).
  { intros k m H. apply Hn, (Permutation_in _ HP), H. }
  exists (map fst (filter (fun e => snd e =? n) (skipn 8 L))).
  rewrite <- Counter_keys_first_seen, (@filter_keys ws n _ Hn).
  rewrite (@filter_keys ws n (firstn 8 L))
    by (intros k m H; apply HL, (In_firstn _ _ _ H)).
  rewrite <- map_app, <- filter_app, firstn_skipn.
  unfold L. rewrite sorted_desc_stable. reflexivity.
Qed.
